(** * Kamap availability parser: a shallow embedding and its properties

    This development embeds [src/parsers/kamap_parser.py] (class
    [KamapParser]) and states the properties of the repository's
    specification over that embedding.

    Modelling conventions.
    - A Python [str] is a [list ascii].  The 256 codes are read as the
      code points U+0000 to U+00FF; the character classes of [re], of
      [str.strip] and of [str.lower] below are the ones CPython uses on
      that range.  Text outside that range is outside the model.
    - [re] is a backtracking matcher over a small pattern syntax that
      covers exactly the constructs the parser's patterns use.
    - Python's [float] is IEEE binary64, written as a [spec_float] and
      obtained from decimal text by correct rounding (to nearest, ties
      to even), as CPython's [float(str)] does.
    - Exceptions and the mutation of [self.listings] are explicit: a
      method is a function from the machine state to an outcome, which
      either returns or raises, in both cases with the state reached.
    - [datetime.now()] reads a clock: the k-th reading of a run is
      [clock k]. *)

From Stdlib Require Import Ascii String.
From Stdlib Require Import List ZArith Lia Bool Arith PeanoNat.
From Stdlib Require Import Floats.SpecFloat.
Import ListNotations.

Set Implicit Arguments.

(** ** Python strings *)

Definition str := list ascii.

Definition lit (s : string) : str := list_ascii_of_string s.
Coercion lit : string >-> str.

Module Py.

Definition code (c : ascii) : nat := nat_of_ascii c.

(** The line feed, ["\n"]. *)
Definition newline : ascii := "010"%char.

Definition between (lo hi n : nat) : bool := (lo <=? n) && (n <=? hi).

(** [Py_UNICODE_ISDECIMAL]: the class [\d] of a [str] pattern, and the
    digits [int] accepts. *)
Definition isdigit (c : ascii) : bool := between 48 57 (code c).

(** [Py_UNICODE_ISSPACE]: the class [\s], and what [str.strip] removes. *)
Definition isspace (c : ascii) : bool :=
  let n := code c in
  between 9 13 n || between 28 32 n || (n =? 133) || (n =? 160).

(** [Py_UNICODE_ISALNUM] or an underscore: the class [\w]. *)
Definition isword (c : ascii) : bool :=
  let n := code c in
  between 48 57 n || between 65 90 n || between 97 122 n || (n =? 95)
  || (n =? 170) || (n =? 178) || (n =? 179) || (n =? 181) || (n =? 185)
  || (n =? 186) || between 188 190 n
  || between 192 214 n || between 216 246 n || between 248 255 n.

(** [str.lower] on one character. *)
Definition lower_char (c : ascii) : ascii :=
  let n := code c in
  if between 65 90 n || between 192 214 n || between 216 222 n
  then ascii_of_nat (n + 32) else c.

Definition lower (s : str) : str := map lower_char s.

(** Truth value of a string: the empty string is false. *)
Definition truthy (s : str) : bool :=
  match s with [] => false | _ :: _ => true end.

Fixpoint lstrip (s : str) : str :=
  match s with
  | c :: s' => if isspace c then lstrip s' else s
  | [] => []
  end.

Definition rstrip (s : str) : str := rev (lstrip (rev s)).

(** [s.strip()] *)
Definition strip (s : str) : str := rstrip (lstrip s).

(** [s.startswith(c)] for a one-character prefix. *)
Definition startswith (c : ascii) (s : str) : bool :=
  match s with
  | d :: _ => Ascii.eqb d c
  | [] => false
  end.

(** [s.split(sep)] for a one-character separator. *)
Fixpoint split (sep : ascii) (s : str) : list str :=
  match s with
  | [] => [[]]
  | c :: s' =>
      if Ascii.eqb c sep then [] :: split sep s'
      else match split sep s' with
           | w :: ws => (c :: w) :: ws
           | [] => [[c]]
           end
  end.

(** [s.split(sep, 1)] for a one-character separator: at most one cut,
    at the first occurrence. *)
Fixpoint split1 (sep : ascii) (s : str) : list str :=
  match s with
  | [] => [[]]
  | c :: s' =>
      if Ascii.eqb c sep then [[]; s']
      else match split1 sep s' with
           | w :: ws => (c :: w) :: ws
           | [] => [[c]]
           end
  end.

(** [s.replace(old, new)] for a one-character [old]. *)
Definition replace (old : ascii) (new : str) (s : str) : str :=
  flat_map (fun c => if Ascii.eqb c old then new else [c]) s.

(** [sep.join(parts)] *)
Fixpoint join (sep : str) (parts : list str) : str :=
  match parts with
  | [] => []
  | [p] => p
  | p :: ps => p ++ sep ++ join sep ps
  end.

(** [s[:i]] and [s[i:]] for an index inside the string. *)
Definition slice_to (i : nat) (s : str) : str := firstn i s.
Definition slice_from (i : nat) (s : str) : str := skipn i s.

(** Exceptions the parser can meet. *)
Inductive exn := ValueError.

(** *** Numbers *)

Definition digit_value (c : ascii) : Z := Z.of_nat (code c - 48).

(** Value of a string of decimal digits, most significant first. *)
Definition decimal (s : str) : Z :=
  fold_left (fun acc c => 10 * acc + digit_value c)%Z s 0%Z.

Definition all_digits (s : str) : bool :=
  truthy s && forallb isdigit s.

(** [sys.get_int_max_str_digits()]: CPython (3.11 and later) refuses to
    convert a text of more digits than this and raises [ValueError]. *)
Definition int_max_str_digits : nat := 4300.

(** [int(s)] on the texts the parser passes to it, which are runs of
    decimal digits (lemmas [bed_group_digits] and
    [findall2_unit_shaped]); anything else is reported as
    [ValueError]. *)
Definition int (s : str) : exn + Z :=
  if all_digits s && (length s <=? int_max_str_digits)
  then inr (decimal s) else inl ValueError.

Definition float := spec_float.

Definition prec : Z := 53.
Definition emax : Z := 1024.

(** The binary64 nearest to the integer [z]. *)
Definition float_of_Z (z : Z) : float := binary_normalize prec emax z 0 false.

(** The binary64 nearest to [m / 10^k], for [m >= 0]. *)
Definition float_of_ratio (m : Z) (k : nat) : float :=
  match m with
  | Zpos p =>
      SFdiv prec emax (S754_finite false p 0)
                      (S754_finite false (Z.to_pos (10 ^ Z.of_nat k)) 0)
  | _ => S754_zero false
  end.

(** [float(s)] on the texts the parser passes to it: digits, or digits,
    a point and digits, or nothing at all (lemmas
    [strip_separators_digits], [bath_pattern_groups] and
    [parking_cost_pattern_groups]).  The empty string and anything else
    raise [ValueError]. *)
Definition to_float (s : str) : exn + float :=
  match split "." s with
  | [i] => if all_digits i then inr (float_of_Z (decimal i)) else inl ValueError
  | [i; f] =>
      if all_digits i && all_digits f
      then inr (float_of_ratio (decimal (i ++ f)) (length f))
      else inl ValueError
  | _ => inl ValueError
  end.

(** The integer a float denotes, when it is finite and integral. *)
Definition float_int_value (x : float) : option Z :=
  match x with
  | S754_zero _ => Some 0%Z
  | S754_finite s m e =>
      let v := if s then Zneg m else Zpos m in
      if (0 <=? e)%Z then Some (v * 2 ^ e)%Z
      else if (Zpos m mod 2 ^ (- e) =? 0)%Z then Some (v / 2 ^ (- e))%Z
      else None
  | _ => None
  end.

(** A number field that holds either an [int] or a [float]. *)
Inductive number :=
| NInt (z : Z)
| NFloat (x : float).

(** *** Calendar dates *)

Record datetime := mkdate { year : Z; month : Z; day : Z }.

Definition is_leap (y : Z) : bool :=
  ((y mod 4 =? 0) && (negb (y mod 100 =? 0) || (y mod 400 =? 0)))%Z.

Definition days_in_month (y m : Z) : Z :=
  (if m =? 2 then (if is_leap y then 29 else 28)
   else if (m =? 4) || (m =? 6) || (m =? 9) || (m =? 11) then 30
   else 31)%Z.

(** [datetime(y, m, d)]: raises [ValueError] outside the calendar. *)
Definition make_datetime (y m d : Z) : exn + datetime :=
  if ((1 <=? y) && (y <=? 9999) && (1 <=? m) && (m <=? 12)
      && (1 <=? d) && (d <=? days_in_month y m))%Z
  then inr (mkdate y m d) else inl ValueError.

End Py.

(** ** Regular expressions

    The fragment of [re] the parser uses: literals, the classes [\d],
    [\w], [\s], the dot, bracket sets ([Either]), sequence, ordered alternation,
    greedy repetition of a one-character item ([*], [+], [{m,n}]),
    greedy option and capture groups.  Matching backtracks as [re]
    does: the first alternative, the longest repetition and the taken
    option are tried first.  The flag [icase] is [re.I]. *)

Module Re.

Inductive atom :=
| Lit (c : ascii)
| Digit
| Word
| Space
| Dot
| Either (a b : atom).

Inductive regex :=
| Eps
| Atom (a : atom)
| Cat (r1 r2 : regex)
| Alt (r1 r2 : regex)
| Rep (a : atom) (lo : nat) (hi : option nat)
| Opt (r : regex)
| Group (i : nat) (r : regex).

Fixpoint atom_ok (icase : bool) (a : atom) (c : ascii) : bool :=
  match a with
  | Lit d =>
      if icase then Ascii.eqb (Py.lower_char c) (Py.lower_char d)
      else Ascii.eqb c d
  | Digit => Py.isdigit c
  | Word => Py.isword c
  | Space => Py.isspace c
  | Dot => negb (Ascii.eqb c Py.newline)
  | Either a1 a2 => atom_ok icase a1 c || atom_ok icase a2 c
  end.

(** A literal word, character by character. *)
Fixpoint text (s : str) : regex :=
  match s with
  | [] => Eps
  | [c] => Atom (Lit c)
  | c :: s' => Cat (Atom (Lit c)) (text s')
  end.

(** [r1|r2|...] *)
Fixpoint alts (rs : list regex) : regex :=
  match rs with
  | [] => Eps
  | [r] => r
  | r :: rs' => Alt r (alts rs')
  end.

(** [r1 r2 ...] *)
Fixpoint cats (rs : list regex) : regex :=
  match rs with
  | [] => Eps
  | [r] => r
  | r :: rs' => Cat r (cats rs')
  end.

Definition star (a : atom) : regex := Rep a 0 None.
Definition plus (a : atom) : regex := Rep a 1 None.
Definition times (a : atom) (lo hi : nat) : regex := Rep a lo (Some hi).

(** Captures: group number and captured text, latest first. *)
Definition caps := list (nat * str).

Section Matcher.
Variable icase : bool.
Variable R : Type.

(** The upper bound leaves room for one more character. *)
Definition has_room (hi : option nat) : bool :=
  match hi with
  | Some 0 => false
  | _ => true
  end.

(** Greedy repetition of a one-character test: take a character when
    allowed, and fall back to stopping here when the rest fails. *)
Fixpoint rep (ok : ascii -> bool) (lo : nat) (hi : option nat) (s : str)
         (k : str -> option R) {struct s} : option R :=
  let stop := match lo with 0 => k s | S _ => None end in
  match s with
  | c :: s' =>
      if ok c && has_room hi then
        match rep ok (pred lo) (option_map pred hi) s' k with
        | Some x => Some x
        | None => stop
        end
      else stop
  | [] => stop
  end.

Fixpoint exec (r : regex) (s : str) (g : caps)
         (k : str -> caps -> option R) {struct r} : option R :=
  match r with
  | Eps => k s g
  | Atom a =>
      match s with
      | c :: s' => if atom_ok icase a c then k s' g else None
      | [] => None
      end
  | Cat r1 r2 => exec r1 s g (fun s' g' => exec r2 s' g' k)
  | Alt r1 r2 =>
      match exec r1 s g k with
      | Some x => Some x
      | None => exec r2 s g k
      end
  | Rep a lo hi => rep (atom_ok icase a) lo hi s (fun s' => k s' g)
  | Opt r1 =>
      match exec r1 s g k with
      | Some x => Some x
      | None => k s g
      end
  | Group i r1 =>
      exec r1 s g
           (fun s' g' => k s' ((i, firstn (length s - length s') s) :: g'))
  end.
End Matcher.

(** A match object: [start()], [end()] and the groups. *)
Record match_obj := mkmatch {
  m_start : nat;
  m_end : nat;
  m_caps : caps
}.

(** [m.group(i)].  Every group of the parser's patterns takes part in
    every match (lemma [groups_take_part] below), so the default is
    never used. *)
Fixpoint lookup (i : nat) (g : caps) : option str :=
  match g with
  | [] => None
  | (j, t) :: g' => if i =? j then Some t else lookup i g'
  end.

Definition group (m : match_obj) (i : nat) : str :=
  match lookup i (m_caps m) with
  | Some t => t
  | None => []
  end.

(** A match that starts at the head of [s]: the text left and the groups. *)
Definition match_at (icase : bool) (r : regex) (s : str) : option (str * caps) :=
  exec icase r s [] (fun s' g => Some (s', g)).

(** The leftmost match in [s], where [s] starts at offset [pos]. *)
Fixpoint search_from (icase : bool) (r : regex) (pos : nat) (s : str)
  : option match_obj :=
  match match_at icase r s with
  | Some (rest, g) => Some (mkmatch pos (pos + (length s - length rest)) g)
  | None =>
      match s with
      | [] => None
      | _ :: s' => search_from icase r (S pos) s'
      end
  end.

(** [re.search(r, s)] and [re.search(r, s, re.I)] *)
Definition search (icase : bool) (r : regex) (s : str) : option match_obj :=
  search_from icase r 0 s.

(** The successive non-overlapping matches, left to right.  [skip] is
    the number of characters of [s] inside the previous match.  After a
    match that took no character the scan moves on by one. *)
Fixpoint scan (icase : bool) (r : regex) (pos skip : nat) (s : str)
  : list match_obj :=
  match skip with
  | S n =>
      match s with
      | [] => []
      | _ :: s' => scan icase r (S pos) n s'
      end
  | 0 =>
      match match_at icase r s with
      | Some (rest, g) =>
          let n := length s - length rest in
          mkmatch pos (pos + n) g ::
          match s with
          | [] => []
          | _ :: s' => scan icase r (S pos) (pred n) s'
          end
      | None =>
          match s with
          | [] => []
          | _ :: s' => scan icase r (S pos) 0 s'
          end
      end
  end.

(** [re.findall(r, s)] for a pattern with two groups: the pairs
    (group 1, group 2) of the successive matches. *)
Definition findall2 (r : regex) (s : str) : list (str * str) :=
  map (fun m => (group m 1, group m 2)) (scan false r 0 0 s).

(** The declarative reading of a pattern: [Matches icase r w c] says
    that [r] matches exactly the text [w] and that the groups inside
    [r] captured [c] (latest first) while doing so. *)
Definition within (hi : option nat) (n : nat) : Prop :=
  match hi with
  | Some h => n <= h
  | None => True
  end.

Inductive Matches (icase : bool) : regex -> str -> caps -> Prop :=
| M_Eps : Matches icase Eps [] []
| M_Atom a c :
    atom_ok icase a c = true -> Matches icase (Atom a) [c] []
| M_Cat r1 r2 w1 w2 c1 c2 :
    Matches icase r1 w1 c1 -> Matches icase r2 w2 c2 ->
    Matches icase (Cat r1 r2) (w1 ++ w2) (c2 ++ c1)
| M_AltL r1 r2 w c :
    Matches icase r1 w c -> Matches icase (Alt r1 r2) w c
| M_AltR r1 r2 w c :
    Matches icase r2 w c -> Matches icase (Alt r1 r2) w c
| M_Rep a lo hi w :
    forallb (atom_ok icase a) w = true -> lo <= length w ->
    within hi (length w) -> Matches icase (Rep a lo hi) w []
| M_OptNone r : Matches icase (Opt r) [] []
| M_OptSome r w c :
    Matches icase r w c -> Matches icase (Opt r) w c
| M_Group i r w c :
    Matches icase r w c -> Matches icase (Group i r) w ((i, w) :: c).

End Re.

(** ** The parser *)

Import Re.
Open Scope string_scope.
Open Scope list_scope.

Definition timestamp := Z.

(** One entry of the list [parse_unit_numbers] returns. *)
Module Unit.
Record t := mk {
  unit_number : str;
  available_date : Py.datetime
}.
End Unit.

(** The dict [parse_room_type] returns. *)
Module Room.
Record t := mk {
  bedrooms : option Z;
  bathrooms : option Py.float;
  room_type : str;
  person_capacity : option Z
}.
End Room.

(** The dict [extract_features] returns. *)
Module Features.
Record t := mk {
  is_remodeled : bool;
  has_balcony : bool;
  has_patio : bool;
  has_parking : bool;
  split_floor_plan : bool;
  parking_cost_yearly : Py.number;
  amenities : str
}.
End Features.

(** The dict [_parse_listing_line] builds for one unit. *)
Record Listing := mkListing {
  listing_id : str;
  property_management : str;
  address : str;
  unit_number : str;
  price_monthly : option Py.float;
  available_date : Py.datetime;
  source_url : str;
  scraped_date : timestamp;
  bedrooms : option Z;
  bathrooms : option Py.float;
  room_type : str;
  person_capacity : option Z;
  is_remodeled : bool;
  has_balcony : bool;
  has_patio : bool;
  has_parking : bool;
  split_floor_plan : bool;
  parking_cost_yearly : Py.number;
  amenities : str;
  description : str
}.

(** The object: the attributes [__init__] sets. *)
Record KamapParser := mkParser {
  pdf_path : str;
  current_year : Z;
  listings : list Listing
}.

Definition __init__ (path : str) : KamapParser :=
  {| pdf_path := path; current_year := 2026; listings := [] |}.

(** What the run reads from outside: the text [pdfplumber] extracts
    from each page of the file at a path, and the clock. *)
Record World := mkWorld {
  pdf_pages : str -> list str;
  clock : nat -> timestamp
}.

(** The machine state: the object and the number of clock readings. *)
Record Machine := mkMachine {
  self : KamapParser;
  ticks : nat
}.

Inductive outcome (A : Type) :=
| Returns (a : A) (m : Machine)
| Raises (e : Py.exn) (m : Machine).

Arguments Returns {A} a m.
Arguments Raises {A} e m.

Definition M (A : Type) := Machine -> outcome A.

Definition ret {A} (a : A) : M A := fun m => Returns a m.

Definition bind {A B} (c : M A) (f : A -> M B) : M B :=
  fun m =>
    match c m with
    | Returns a m' => f a m'
    | Raises e m' => Raises e m'
    end.

Notation "x <- c ;; k" := (bind c (fun x => k))
  (at level 61, c at next level, right associativity).
Notation "c ;;; k" := (bind c (fun _ => k))
  (at level 61, right associativity).

(** A value or an exception of a call that does not touch the state. *)
Definition lift {A} (r : Py.exn + A) : M A :=
  fun m =>
    match r with
    | inr a => Returns a m
    | inl e => Raises e m
    end.

Definition get_self : M KamapParser := fun m => Returns (self m) m.

(** [datetime.now()] *)
Definition datetime_now (w : World) : M timestamp :=
  fun m => Returns (clock w (ticks m)) (mkMachine (self m) (S (ticks m))).

(** [self.listings.append(listing)] *)
Definition listings_append (l : Listing) : M unit :=
  fun m =>
    let o := self m in
    Returns tt (mkMachine (mkParser (pdf_path o) (current_year o)
                                    (listings o ++ [l]))
                          (ticks m)).

(** [for x in xs: body(x)] *)
Fixpoint for_each {A} (xs : list A) (body : A -> M unit) : M unit :=
  match xs with
  | [] => ret tt
  | x :: xs' => body x ;;; for_each xs' body
  end.

(** Sequencing of calls that can raise but leave the state alone. *)
Definition bindE {A B} (r : Py.exn + A) (f : A -> Py.exn + B) : Py.exn + B :=
  match r with
  | inr a => f a
  | inl e => inl e
  end.

(** *** extract_text *)

Definition extract_text (w : World) (o : KamapParser) : str :=
  fold_left (fun text page => text ++ page ++ [Py.newline])
            (pdf_pages w (pdf_path o)) [].

(** *** parse_unit_numbers *)

(** [(\w+)\s*\((\d{1,2}/\d{1,2})\)] *)
Definition unit_pattern : regex :=
  cats [Group 1 (plus Word); star Space; Atom (Lit "(");
        Group 2 (cats [times Digit 1 2; Atom (Lit "/"); times Digit 1 2]);
        Atom (Lit ")")].

(** The body of the [try]: split the date text at the slash, convert
    both halves, build the date.  A wrong number of halves fails the
    unpacking, also with [ValueError]. *)
Definition unit_date (o : KamapParser) (date_str : str) : Py.exn + Py.datetime :=
  match Py.split "/" date_str with
  | [a; b] =>
      bindE (Py.int a) (fun month =>
      bindE (Py.int b) (fun day =>
      Py.make_datetime (current_year o) month day))
  | _ => inl Py.ValueError
  end.

Definition parse_unit_numbers (o : KamapParser) (unit_text : str) : list Unit.t :=
  let matches := findall2 unit_pattern unit_text in
  fold_left
    (fun units '(unit_num, date_str) =>
       match unit_date o date_str with
       | inr available_date => units ++ [Unit.mk unit_num available_date]
       | inl Py.ValueError => units
       end)
    matches [].

(** *** parse_price *)

(** [\$?([\d,]+)] *)
Definition price_pattern : regex :=
  Cat (Opt (Atom (Lit "$"))) (Group 1 (plus (Either Digit (Lit ",")))).

Definition parse_price (price_str : str) : Py.exn + option Py.float :=
  match search false price_pattern price_str with
  | Some m =>
      bindE (Py.to_float (Py.replace "," [] (group m 1)))
            (fun x => inr (Some x))
  | None => inr None
  end.

(** *** parse_room_type *)

(** [(\d+)\s*(Bed|Singles?|Person)] *)
Definition bed_pattern : regex :=
  cats [Group 1 (plus Digit); star Space;
        Group 2 (alts [text "Bed";
                       Cat (text "Single") (Opt (Atom (Lit "s")));
                       text "Person"])].

(** [(\d+(?:\.\d+)?)\s*Bath] *)
Definition bath_pattern : regex :=
  cats [Group 1 (Cat (plus Digit) (Opt (Cat (Atom (Lit ".")) (plus Digit))));
        star Space; text "Bath"].

Definition parse_room_type (room_str : str) : Py.exn + Room.t :=
  let bed_match := search false bed_pattern room_str in
  let bath_match := search false bath_pattern room_str in
  bindE (match bed_match with
         | Some m => bindE (Py.int (group m 1)) (fun z => inr (Some z))
         | None => inr None
         end) (fun beds =>
  bindE (match bath_match with
         | Some m => bindE (Py.to_float (group m 1)) (fun x => inr (Some x))
         | None => inr None
         end) (fun baths =>
  let room_type := match bed_match with
                   | Some m => group m 2
                   | None => lit "Unknown"
                   end in
  inr (Room.mk beds baths room_type beds))).

(** *** extract_features *)

(** [bool(re.search(word, description, re.I))] *)
Definition found_i (r : regex) (description : str) : bool :=
  match search true r description with
  | Some _ => true
  | None => false
  end.

(** [\$(\d+)\s*per year] *)
Definition parking_cost_pattern : regex :=
  cats [Atom (Lit "$"); Group 1 (plus Digit); star Space; text "per year"].

(** [Free.*Internet] *)
Definition internet_pattern : regex :=
  cats [text "Free"; star Dot; text "Internet"].

(** [Water.*Trash|Trash.*Water] *)
Definition water_trash_pattern : regex :=
  Alt (cats [text "Water"; star Dot; text "Trash"])
      (cats [text "Trash"; star Dot; text "Water"]).

(** [Washer.*Dryer] *)
Definition washer_dryer_pattern : regex :=
  cats [text "Washer"; star Dot; text "Dryer"].

(** [Gas] *)
Definition gas_pattern : regex := text "Gas".

Definition extract_features (description : str) : Py.exn + Features.t :=
  let is_remodeled := found_i (text "Remodeled") description in
  let has_balcony := found_i (text "Balcony") description in
  let has_patio := found_i (text "Patio") description in
  let has_parking := found_i (text "Parking Available") description in
  let split_floor_plan := found_i (text "Split Floor Plan") description in
  let parking_cost_match := search false parking_cost_pattern description in
  bindE (match parking_cost_match with
         | Some m => bindE (Py.to_float (group m 1)) (fun x => inr (Py.NFloat x))
         | None => inr (Py.NInt 0)
         end) (fun parking_cost_yearly =>
  let amenities := [] in
  let amenities :=
    if found_i internet_pattern description
    then amenities ++ [lit "Free Internet"] else amenities in
  let amenities :=
    if found_i water_trash_pattern description
    then amenities ++ [lit "Water/Trash Included"] else amenities in
  let amenities :=
    if found_i washer_dryer_pattern description
    then amenities ++ [lit "In-Unit Washer/Dryer"] else amenities in
  let amenities :=
    if found_i gas_pattern description
    then amenities ++ [lit "Gas Included"] else amenities in
  inr (Features.mk is_remodeled has_balcony has_patio has_parking
         split_floor_plan parking_cost_yearly
         (match amenities with
          | [] => lit "None listed"
          | _ :: _ => Py.join ", " amenities
          end))).

(** *** _parse_listing_line *)

(** [Unit[s]?\s*#] *)
Definition unit_marker_pattern : regex :=
  cats [text "Unit"; Opt (Atom (Lit "s")); star Space; Atom (Lit "#")].

(** The dict literal of the loop body. *)
Definition make_listing (line address_ : str) (price : option Py.float)
           (room_info : Room.t) (features : Features.t)
           (unit_info : Unit.t) (now : timestamp) : Listing :=
  {| listing_id :=
       Py.lower (lit "kamap_" ++ Py.replace " " "_" address_ ++ lit "_"
                 ++ Unit.unit_number unit_info);
     property_management := "Kamap Property Management";
     address := address_ ++ lit ", Isla Vista, CA 93117";
     unit_number := Unit.unit_number unit_info;
     price_monthly := price;
     available_date := Unit.available_date unit_info;
     source_url := "https://www.kamap.net/";
     scraped_date := now;
     bedrooms := Room.bedrooms room_info;
     bathrooms := Room.bathrooms room_info;
     room_type := Room.room_type room_info;
     person_capacity := Room.person_capacity room_info;
     is_remodeled := Features.is_remodeled features;
     has_balcony := Features.has_balcony features;
     has_patio := Features.has_patio features;
     has_parking := Features.has_parking features;
     split_floor_plan := Features.split_floor_plan features;
     parking_cost_yearly := Features.parking_cost_yearly features;
     amenities := Features.amenities features;
     description := Py.strip line |}.

Definition _parse_listing_line (w : World) (line address_ : str) : M unit :=
  match Py.split1 " " line with
  | price_part :: rest :: _ =>
      price <- lift (parse_price price_part) ;;
      match search false unit_marker_pattern rest with
      | None => ret tt
      | Some unit_match =>
          let room_part := Py.strip (Py.slice_to (m_start unit_match) rest) in
          let unit_part := Py.strip (Py.slice_from (m_end unit_match) rest) in
          room_info <- lift (parse_room_type room_part) ;;
          o <- get_self ;;
          let units := parse_unit_numbers o unit_part in
          features <- lift (extract_features (line ++ lit " " ++ unit_part)) ;;
          for_each units (fun unit_info =>
            now <- datetime_now w ;;
            listings_append
              (make_listing line address_ price room_info features unit_info now))
      end
  | _ => ret tt
  end.

(** *** parse_all *)

Definition street_names : list str :=
  [lit "Cordoba"; lit "Abrego"; lit "El Nido"; lit "Segovia";
   lit "Sabado Tarde"; lit "Trigo"; lit "Picasso"; lit "Pasado";
   lit "Camino Corto"; lit "Embarcadero del Norte"].

Definition street_suffixes : list str :=
  [lit "Rd"; lit "St"; lit "Ave"; lit "Dr"; lit "Ln"].

(** [(\d{4,5}\s+(?:Cordoba|...)(?:\s+(?:Rd|St|Ave|Dr|Ln))?)] *)
Definition address_pattern : regex :=
  Group 1 (cats [times Digit 4 5; plus Space;
                 alts (map text street_names);
                 Opt (Cat (plus Space) (alts (map text street_suffixes)))]).

(** The body of the loop over the lines, with the local variable
    [current_address] passed along. *)
Fixpoint parse_lines (w : World) (lines : list str)
         (current_address : option str) : M unit :=
  match lines with
  | [] => ret tt
  | line :: lines' =>
      let line := Py.strip line in
      match search true address_pattern line with
      | Some addr_match =>
          parse_lines w lines' (Some (group addr_match 1))
      | None =>
          match current_address with
          | Some a =>
              if Py.startswith "$" line && Py.truthy a
              then _parse_listing_line w line a ;;; parse_lines w lines' current_address
              else parse_lines w lines' current_address
          | None => parse_lines w lines' current_address
          end
      end
  end.

Definition parse_all (w : World) : M (list Listing) :=
  o <- get_self ;;
  let text := extract_text w o in
  parse_lines w (Py.split Py.newline text) None ;;;
  o' <- get_self ;;
  ret (listings o').

(** A run of the pipeline's first step: a new object, then [parse_all]. *)
Definition run (w : World) (path : str) : outcome (list Listing) :=
  parse_all w (mkMachine (__init__ path) 0).

(** ** The dashboard ([app.py]) *)

(** [x < z] for a float [x] and one of the integer literals of the
    source, which binary64 holds exactly.  A comparison with NaN is
    false. *)
Definition float_lt_int (x : Py.float) (z : Z) : bool :=
  SFltb x (Py.float_of_Z z).

(** [get_price_color]: the colour of a marker, by price range. *)
Definition get_price_color (price : Py.float) : str :=
  if float_lt_int price 2800 then lit "green"
  else if float_lt_int price 3500 then lit "orange"
  else lit "red".

(** * Vocabulary of the specification

    The definitions below do not come from the source: they name what
    the specification talks about, so that its sentences can be
    compared with the parser. *)

Fixpoint take_while (p : ascii -> bool) (s : str) : str :=
  match s with
  | c :: s' => if p c then c :: take_while p s' else []
  | [] => []
  end.

Fixpoint drop_while (p : ascii -> bool) (s : str) : str :=
  match s with
  | c :: s' => if p c then drop_while p s' else s
  | [] => []
  end.

(** The group numbers that occur in a pattern. *)
Fixpoint groups (r : regex) : list nat :=
  match r with
  | Cat r1 r2 | Alt r1 r2 => groups r1 ++ groups r2
  | Opt r1 => groups r1
  | Group i r1 => i :: groups r1
  | _ => []
  end.

(** *** Unit/date pairs *)

(** Days of the months of 2026, the fixed reference year. *)
Definition days_of_2026 : list Z :=
  [31; 28; 31; 30; 31; 30; 31; 31; 30; 31; 30; 31]%Z.

Definition valid_month_day (mth d : Z) : bool :=
  ((1 <=? mth) && (mth <=? 12) && (1 <=? d)
   && (d <=? nth (Z.to_nat (mth - 1)) days_of_2026 0))%Z.

(** Month and day of a date text [m/d]: the digits before and after
    the slash. *)
Definition pair_month (date_str : str) : Z :=
  Py.decimal (take_while Py.isdigit date_str).

Definition pair_day (date_str : str) : Z :=
  Py.decimal (skipn 1 (drop_while Py.isdigit date_str)).

(** The shape the unit pattern gives to a date text. *)
Definition date_shaped (date_str : str) : Prop :=
  exists d1 d2, date_str = d1 ++ "/"%char :: d2 /\
                Py.all_digits d1 = true /\ Py.all_digits d2 = true /\
                length d1 <= 2 /\ length d2 <= 2.

(** A unit/date pair is a unit text and a date text. *)
Definition valid_pair (p : str * str) : bool :=
  valid_month_day (pair_month (snd p)) (pair_day (snd p)).

Definition pair_date (p : str * str) : Py.datetime :=
  Py.mkdate 2026 (pair_month (snd p)) (pair_day (snd p)).

Definition unit_of_pair (p : str * str) : Unit.t :=
  Unit.mk (fst p) (pair_date p).

(** The unit/date pairs with a valid date in a unit/date fragment. *)
Definition valid_pairs (unit_text : str) : list (str * str) :=
  filter valid_pair (findall2 unit_pattern unit_text).

(** *** Prices *)

Definition is_numeral_char (c : ascii) : bool :=
  Py.isdigit c || Ascii.eqb c ",".

(** The first run of digits and thousands separators of a fragment. *)
Definition first_numeral (s : str) : option str :=
  match drop_while (fun c => negb (is_numeral_char c)) s with
  | [] => None
  | t => Some (take_while is_numeral_char t)
  end.

(** The fragment has a numeral that a currency symbol precedes. *)
Fixpoint has_currency_numeral (s : str) : bool :=
  match s with
  | c :: s' =>
      (Ascii.eqb c "$" && match s' with
                           | d :: _ => Py.isdigit d
                           | [] => false
                           end)
      || has_currency_numeral s'
  | [] => false
  end.

(** What the price pattern finds when the text starts with a numeral. *)
Definition price_hit (s : str) : option (str * caps) :=
  if (1 <=? length (take_while is_numeral_char s))%nat
  then Some (drop_while is_numeral_char s, [(1, take_while is_numeral_char s)])
  else None.

(** A price token the price extractor accepts: its first numeral, if
    any, holds a digit. *)
Definition price_token_ok (s : str) : bool :=
  match first_numeral s with
  | Some t => existsb Py.isdigit t
  | None => true
  end.

(** *** Room configurations *)

(** The bedroom count of a room fragment, if any, is short enough for
    [int] to convert it. *)
Definition room_text_ok (room_str : str) : bool :=
  match search false bed_pattern room_str with
  | Some m => (length (group m 1) <=? Py.int_max_str_digits)%nat
  | None => true
  end.

(** *** Amenities *)

(** The keyword patterns and their canonical tags, in scan order. *)
Definition amenity_table : list (regex * str) :=
  [(internet_pattern, lit "Free Internet");
   (water_trash_pattern, lit "Water/Trash Included");
   (washer_dryer_pattern, lit "In-Unit Washer/Dryer");
   (gas_pattern, lit "Gas Included")].

Definition amenity_tags (description : str) : list str :=
  map snd (filter (fun e => found_i (fst e) description) amenity_table).

(** *** Records *)

Definition address_suffix : str := ", Isla Vista, CA 93117".

(** The id that the address and unit number of a record determine. *)
Definition id_of (address_ unit_number_ : str) : str :=
  Py.lower (lit "kamap_"
            ++ Py.replace " " "_"
                 (firstn (length address_ - length address_suffix) address_)
            ++ lit "_" ++ unit_number_).

(** The fields of a record other than [listing_id], [unit_number],
    [available_date] and [scraped_date]. *)
Definition shared_fields (r : Listing) :=
  (property_management r, address r, source_url r, description r,
   price_monthly r,
   (bedrooms r, bathrooms r, room_type r, person_capacity r),
   (is_remodeled r, has_balcony r, has_patio r, has_parking r,
    split_floor_plan r),
   parking_cost_yearly r, amenities r).

(** Two records differ in nothing but [unit_number] and
    [available_date]. *)
Definition differ_only_in_unit_and_date (r1 r2 : Listing) : Prop :=
  listing_id r1 = listing_id r2 /\ scraped_date r1 = scraped_date r2 /\
  shared_fields r1 = shared_fields r2.

Definition triple (r : Listing) : str * str * Py.datetime :=
  (address r, unit_number r, available_date r).

(** The unit/date pairs with a valid date that a listing line names:
    those of the text after the unit marker of its remainder. *)
Definition line_pairs (line : str) : list (str * str) :=
  match Py.split1 " " line with
  | _ :: rest :: _ =>
      match search false unit_marker_pattern rest with
      | Some um => valid_pairs (Py.strip (skipn (m_end um) rest))
      | None => []
      end
  | _ => []
  end.

(** The price token of a line: the text before its first blank. *)
Definition price_token (line : str) : str :=
  hd [] (Py.split1 " " line).

(** The room fragment of a line: the text between the price token and
    the unit marker. *)
Definition room_fragment (line : str) : str :=
  match Py.split1 " " line with
  | _ :: rest :: _ =>
      match search false unit_marker_pattern rest with
      | Some um => Py.strip (firstn (m_start um) rest)
      | None => []
      end
  | _ => []
  end.

(** A line the extractors accept: its price token holds a digit if it
    holds a numeral, and its bedroom count is not too long. *)
Definition line_ok (line : str) : bool :=
  price_token_ok (price_token line) && room_text_ok (room_fragment line).

(** A line of the document that, if it starts with the currency symbol,
    is one the extractors accept. *)
Definition listing_line_ok (l : str) : Prop :=
  Py.startswith "$" (Py.strip l) = true -> line_ok (Py.strip l) = true.

(** The occurrences of (address, unit, date) triples in a document, in
    order: every valid pair of every line that starts with the currency
    symbol, under the address of the last address line before it. *)
Fixpoint occurrences (ctx : option str) (lines : list str)
  : list (str * str * Py.datetime) :=
  match lines with
  | [] => []
  | l :: ls =>
      let l := Py.strip l in
      match search true address_pattern l with
      | Some am => occurrences (Some (group am 1)) ls
      | None =>
          match ctx with
          | Some a =>
              (if Py.startswith "$" l
               then map (fun p => (a ++ address_suffix, fst p, pair_date p))
                        (line_pairs l)
               else [])
              ++ occurrences ctx ls
          | None => occurrences ctx ls
          end
      end
  end.

(** A line is not an address line. *)
Definition no_address (l : str) : Prop :=
  search true address_pattern (Py.strip l) = None.

(** *** The parser without its state

    The records a listing line and a document give rise to, each still
    waiting for its time stamp, and the exception that ends the walk,
    if any.  These are compared with the parser below
    ([parse_listing_line_pure], [parse_lines_pure]). *)

Definition template := timestamp -> Listing.

Definition line_templates (o : KamapParser) (line address_ : str)
  : Py.exn + list template :=
  match Py.split1 " " line with
  | price_part :: rest :: _ =>
      bindE (parse_price price_part) (fun price =>
      match search false unit_marker_pattern rest with
      | None => inr []
      | Some um =>
          let room_part := Py.strip (firstn (m_start um) rest) in
          let unit_part := Py.strip (skipn (m_end um) rest) in
          bindE (parse_room_type room_part) (fun room_info =>
          bindE (extract_features (line ++ lit " " ++ unit_part)) (fun features =>
          inr (map (make_listing line address_ price room_info features)
                   (parse_unit_numbers o unit_part))))
      end)
  | _ => inr []
  end.

Fixpoint walk_templates (o : KamapParser) (lines : list str)
         (ctx : option str) : list template * option Py.exn :=
  match lines with
  | [] => ([], None)
  | l :: ls =>
      let l := Py.strip l in
      match search true address_pattern l with
      | Some am => walk_templates o ls (Some (group am 1))
      | None =>
          match ctx with
          | Some a =>
              if Py.startswith "$" l && Py.truthy a then
                match line_templates o l a with
                | inr fs =>
                    let (gs, e) := walk_templates o ls ctx in (fs ++ gs, e)
                | inl e => ([], Some e)
                end
              else walk_templates o ls ctx
          | None => walk_templates o ls ctx
          end
      end
  end.

(** The records of a list of templates stamped by successive clock
    readings, from reading number [t0] on. *)
Fixpoint stamp (w : World) (t0 : nat) (fs : list template) : list Listing :=
  match fs with
  | [] => []
  | f :: fs' => f (clock w t0) :: stamp w (S t0) fs'
  end.

(** The state after the records of [fs] were appended. *)
Definition emit (w : World) (m : Machine) (fs : list template) : Machine :=
  mkMachine (mkParser (pdf_path (self m)) (current_year (self m))
                      (listings (self m) ++ stamp w (ticks m) fs))
            (ticks m + length fs).

(** The lines [parse_all] walks over. *)
Definition lines_of (w : World) (path : str) : list str :=
  Py.split Py.newline (extract_text w (__init__ path)).

(** A template is a record of [make_listing] without its time stamp. *)
Definition is_template (f : template) : Prop :=
  exists line a price room feat u, f = make_listing line a price room feat u.

(** *** What the code keeps

    Names for the properties of the source functions proved in the
    last part. *)

(** The records an outcome leaves in [self.listings]: the value
    returned, or what had been appended when the exception was
    raised. *)
Definition records_of (o : outcome (list Listing)) : list Listing :=
  match o with
  | Returns l _ => l
  | Raises _ m => listings (self m)
  end.

(** The state an outcome ends in. *)
Definition final_state {A} (o : outcome A) : Machine :=
  match o with
  | Returns _ m => m
  | Raises _ m => m
  end.

(** The address context after a list of lines: the fragment of the
    last address line, or the context before them. *)
Fixpoint context_after (lines : list str) (ctx : option str) : option str :=
  match lines with
  | [] => ctx
  | l :: ls =>
      match search true address_pattern (Py.strip l) with
      | Some am => context_after ls (Some (group am 1))
      | None => context_after ls ctx
      end
  end.

(** [a] is the address fragment found in one of the lines. *)
Definition address_fragment_of (lines : list str) (a : str) : Prop :=
  exists l am,
    In l lines /\ search true address_pattern (Py.strip l) = Some am /\
    a = group am 1.

(** [f] is a record (without its time stamp) that the assembler builds
    from the listing line [line] under the address [a]. *)
Definition listing_of_line (o : KamapParser) (line a : str) (f : template)
  : Prop :=
  exists price_part rest tl um price room feat u,
    Py.split1 " " line = price_part :: rest :: tl /\
    search false unit_marker_pattern rest = Some um /\
    parse_price price_part = inr price /\
    parse_room_type (Py.strip (firstn (m_start um) rest)) = inr room /\
    extract_features (line ++ lit " " ++ Py.strip (skipn (m_end um) rest))
    = inr feat /\
    In u (parse_unit_numbers o (Py.strip (skipn (m_end um) rest))) /\
    f = make_listing line a price room feat u.

(** [f] comes from a line of the document that starts with the currency
    symbol and holds no address, under an address fragment of the
    document. *)
Definition origin (o : KamapParser) (lines : list str) (f : template) : Prop :=
  exists l a,
    In l lines /\ Py.startswith "$" (Py.strip l) = true /\
    search true address_pattern (Py.strip l) = None /\
    address_fragment_of lines a /\ listing_of_line o (Py.strip l) a f.

(** A float that is neither NaN nor negative: zero, a positive number
    or plus infinity. *)
Definition float_nonneg (x : Py.float) : Prop :=
  match x with
  | S754_zero s | S754_infinity s | S754_finite s _ _ => s = false
  | S754_nan => False
  end.

Definition opt_float_nonneg (x : option Py.float) : Prop :=
  match x with
  | Some y => float_nonneg y
  | None => True
  end.

Definition number_nonneg (n : Py.number) : Prop :=
  match n with
  | Py.NInt z => z = 0%Z
  | Py.NFloat x => float_nonneg x
  end.

(** The needle occurs in the text when letter case is ignored. *)
Definition contains_i (needle hay : str) : Prop :=
  exists pre post, Py.lower hay = pre ++ Py.lower needle ++ post.

(** The text starts with the word when letter case is ignored. *)
Fixpoint starts_with_i (word s : str) : bool :=
  match word, s with
  | [], _ => true
  | d :: word', c :: s' =>
      Ascii.eqb (Py.lower_char c) (Py.lower_char d) && starts_with_i word' s'
  | _ :: _, [] => false
  end.

(** The room types [parse_room_type] can give. *)
Definition room_types : list str :=
  [lit "Bed"; lit "Single"; lit "Singles"; lit "Person"].

(** *** Examples *)

Definition segovia : str := "6543 Segovia Rd".

(** The machine of a new object. *)
Definition fresh : Machine := mkMachine (__init__ "kamap_availability.pdf") 0.

(** A world whose PDF is the one page [page] and whose clock stands still. *)
Definition still (page : str) : World := mkWorld (fun _ => [page]) (fun _ => 0%Z).

Definition two_lines (l1 l2 : str) : str := l1 ++ Py.newline :: l2.

Definition three_lines (l1 l2 l3 : str) : str :=
  l1 ++ Py.newline :: l2 ++ Py.newline :: l3.

(** A listing line that names two units. *)
Definition two_unit_line : str :=
  "$3,250 2 Bed / 2 Bath Units #A101 (8/15), A102 (9/1)".

(** The example of the specification: an address line and a listing
    line for one unit. *)
Definition one_unit_line : str := "$3,250 2 Bed / 2 Bath Unit #A101 (8/15)".

Definition spec_example_page : str := two_lines segovia one_unit_line.

(** The same listing line twice under one address. *)
Definition repeated_page : str := three_lines segovia one_unit_line one_unit_line.

(** A listing line without a unit marker whose price token holds a
    separator and no digit. *)
Definition bare_separator_page : str := two_lines segovia "$, studio".

(** A unit/date fragment with two impossible dates. *)
Definition mixed_fragment : str := "A101 (8/15), B2 (13/1), C3 (2/30), D4 (12/31)".

(** A listing line whose unit/date fragment is [mixed_fragment]. *)
Definition mixed_line : str :=
  "$3,250 2 Bed / 2 Bath Units #A101 (8/15), B2 (13/1), C3 (2/30), D4 (12/31)".

(** A room fragment whose bedroom count has one digit more than [int]
    converts. *)
Definition long_room_text : str :=
  repeat "1"%char (S Py.int_max_str_digits) ++ lit " Bed".

(** A record with nothing in it. *)
Definition blank_listing : Listing :=
  make_listing [] [] None (Room.mk None None [] None)
    (Features.mk false false false false false (Py.NInt 0) [])
    (Unit.mk [] (Py.mkdate 0 0 0)) 0%Z.

(** A document whose listing line names the units [A1] and [a1]. *)
Definition twin_units_page : str :=
  two_lines segovia "$3,250 2 Bed / 2 Bath Units #A1 (8/15), a1 (9/1)".

(** A world with a clock that runs. *)
Definition ticking (page : str) : World :=
  mkWorld (fun _ => [page]) (fun k => (1700000000 + Z.of_nat k)%Z).

(** * Properties *)

Unset Implicit Arguments.

(** ** The matcher is sound for the declarative reading *)

Lemma rep_sound (R : Type) ok lo hi s (k : str -> option R) x :
  rep ok lo hi s k = Some x ->
  exists w rest,
    s = w ++ rest /\ forallb ok w = true /\ lo <= length w /\
    within hi (length w) /\ k rest = Some x.
Proof.
  revert lo hi x. induction s as [|c s IH]; intros lo hi x H.
  - simpl in H. destruct lo; [|discriminate].
    exists [], []. simpl. repeat split; auto. destruct hi; simpl; lia.
  - simpl in H.
    assert (Hstop : match lo with 0 => k (c :: s) | S _ => None end = Some x ->
                    exists w rest, c :: s = w ++ rest /\ forallb ok w = true /\
                      lo <= length w /\ within hi (length w) /\ k rest = Some x).
    { intros H0. destruct lo; [|discriminate].
      exists [], (c :: s). simpl. repeat split; auto. destruct hi; simpl; lia. }
    destruct (ok c && has_room hi) eqn:E; [|auto].
    apply andb_true_iff in E. destruct E as [Ec Er].
    destruct (rep ok (pred lo) (option_map pred hi) s k) eqn:E1; [|auto].
    inversion H; subst. apply IH in E1.
    destruct E1 as (w & rest & -> & Hw & Hlo & Hhi & Hk).
    exists (c :: w), rest. simpl. rewrite Ec, Hw. repeat split; auto.
    + lia.
    + destruct hi as [[|h]|]; simpl in *; try discriminate; lia.
Qed.

Lemma firstn_consumed (w rest : str) :
  firstn (length (w ++ rest) - length rest) (w ++ rest) = w.
Proof.
  rewrite length_app.
  replace (length w + length rest - length rest) with (length w + 0) by lia.
  rewrite firstn_app_2. simpl. apply app_nil_r.
Qed.

Lemma exec_sound (R : Type) icase r :
  forall s g (k : str -> caps -> option R) x,
    exec icase r s g k = Some x ->
    exists w rest c,
      s = w ++ rest /\ Matches icase r w c /\ k rest (c ++ g) = Some x.
Proof.
  induction r as [|a|r1 IH1 r2 IH2|r1 IH1 r2 IH2|a lo hi|r1 IH1|i r1 IH1];
    intros s g k x H; simpl in H.
  - exists [], s, []. repeat split; auto. constructor.
  - destruct s as [|c s]; [discriminate|].
    destruct (atom_ok icase a c) eqn:E; [|discriminate].
    exists [c], s, []. repeat split; auto. now constructor.
  - apply IH1 in H. destruct H as (w1 & rest1 & c1 & -> & M1 & H).
    apply IH2 in H. destruct H as (w2 & rest & c2 & -> & M2 & H).
    exists (w1 ++ w2), rest, (c2 ++ c1). rewrite <- !app_assoc.
    repeat split; auto. now constructor.
  - destruct (exec icase r1 s g k) eqn:E.
    + inversion H; subst. apply IH1 in E.
      destruct E as (w & rest & c & -> & M1 & E).
      exists w, rest, c. repeat split; auto. now apply M_AltL.
    + apply IH2 in H. destruct H as (w & rest & c & -> & M1 & E').
      exists w, rest, c. repeat split; auto. now apply M_AltR.
  - apply rep_sound in H. destruct H as (w & rest & -> & Hw & Hlo & Hhi & Hk).
    exists w, rest, []. repeat split; auto. now constructor.
  - destruct (exec icase r1 s g k) eqn:E.
    + inversion H; subst. apply IH1 in E.
      destruct E as (w & rest & c & -> & M1 & E).
      exists w, rest, c. repeat split; auto. now apply M_OptSome.
    + exists [], s, []. repeat split; auto. constructor.
  - apply IH1 in H. destruct H as (w & rest & c & -> & M1 & H).
    rewrite firstn_consumed in H.
    exists w, rest, ((i, w) :: c). repeat split; auto. now constructor.
Qed.

Lemma match_at_sound icase r s rest g :
  match_at icase r s = Some (rest, g) ->
  exists w, s = w ++ rest /\ Matches icase r w g /\
            length s - length rest = length w.
Proof.
  unfold match_at. intros H. apply exec_sound in H.
  destruct H as (w & rest' & c & -> & M1 & H). inversion H; subst.
  rewrite app_nil_r. exists w. repeat split; auto.
  rewrite length_app. lia.
Qed.

Lemma search_from_sound icase r s : forall pos m,
  search_from icase r pos s = Some m ->
  exists pre w rest,
    s = pre ++ w ++ rest /\ Matches icase r w (m_caps m) /\
    m_start m = pos + length pre /\ m_end m = m_start m + length w.
Proof.
  induction s as [|c s IH]; intros pos m H.
  - simpl in H.
    destruct (match_at icase r []) as [[rest g]|] eqn:E; [|discriminate].
    apply match_at_sound in E. destruct E as (w & E & M1 & L).
    inversion H; subst; clear H. simpl in *.
    exists [], w, rest. simpl. repeat split; auto; lia.
  - cbn [search_from] in H.
    destruct (match_at icase r (c :: s)) as [[rest g]|] eqn:E.
    + apply match_at_sound in E. destruct E as (w & E & M1 & L).
      inversion H; subst; clear H. cbn [m_start m_end m_caps].
      exists [], w, rest. cbn [app length]. repeat split; auto; lia.
    + apply IH in H. destruct H as (pre & w & rest & -> & M1 & Hs & He).
      exists (c :: pre), w, rest. simpl. repeat split; auto; lia.
Qed.

Lemma search_sound icase r s m :
  search icase r s = Some m ->
  exists pre w rest,
    s = pre ++ w ++ rest /\ Matches icase r w (m_caps m) /\
    m_start m = length pre /\ m_end m = length pre + length w.
Proof.
  intros H. apply search_from_sound in H.
  destruct H as (pre & w & rest & ? & ? & ? & ?).
  exists pre, w, rest. repeat split; auto; lia.
Qed.

Lemma scan_sound icase r s : forall pos skip m,
  In m (scan icase r pos skip s) -> exists w, Matches icase r w (m_caps m).
Proof.
  induction s as [|c s IH]; intros pos skip m H.
  - destruct skip; simpl in H; [|contradiction].
    destruct (match_at icase r []) as [[rest g]|] eqn:E; [|contradiction].
    destruct H as [<-|[]]. apply match_at_sound in E.
    destruct E as (w & _ & M1 & _). now exists w.
  - destruct skip; simpl in H; [|eauto].
    destruct (match_at icase r (c :: s)) as [[rest g]|] eqn:E; [|eauto].
    destruct H as [<-|H]; [|eauto]. apply match_at_sound in E.
    destruct E as (w & _ & M1 & _). now exists w.
Qed.

(** ** Texts *)

Lemma take_drop_while p (s : str) : take_while p s ++ drop_while p s = s.
Proof.
  induction s as [|c s IH]; simpl; auto.
  destruct (p c); simpl; congruence.
Qed.

Lemma take_while_all p (s t : str) :
  forallb p s = true ->
  take_while p (s ++ t) = s ++ take_while p t.
Proof.
  induction s as [|c s IH]; simpl; auto.
  intros H. apply andb_true_iff in H. destruct H as [-> H].
  now rewrite IH.
Qed.

Lemma drop_while_all p (s t : str) :
  forallb p s = true ->
  drop_while p (s ++ t) = drop_while p t.
Proof.
  induction s as [|c s IH]; simpl; auto.
  intros H. apply andb_true_iff in H. destruct H as [-> H]. auto.
Qed.

Lemma split_nonempty sep (s : str) : Py.split sep s <> [].
Proof.
  destruct s as [|c s]; simpl; [discriminate|].
  destruct (Ascii.eqb c sep); [discriminate|].
  destruct (Py.split sep s); discriminate.
Qed.

(** Cutting at a separator cuts the list of pieces. *)
Lemma split_app sep (a b : str) :
  Py.split sep (a ++ sep :: b) = Py.split sep a ++ Py.split sep b.
Proof.
  induction a as [|c a IH]; simpl.
  - now rewrite Ascii.eqb_refl.
  - destruct (Ascii.eqb c sep); [now rewrite IH|].
    rewrite IH. pose proof (split_nonempty sep a) as Hn.
    destruct (Py.split sep a); [contradiction|reflexivity].
Qed.

Lemma split_none sep (a : str) :
  forallb (fun c => negb (Ascii.eqb c sep)) a = true ->
  Py.split sep a = [a].
Proof.
  induction a as [|c a IH]; simpl; auto.
  intros H. apply andb_true_iff in H. destruct H as [Hc H].
  apply negb_true_iff in Hc. rewrite Hc, (IH H). reflexivity.
Qed.

Lemma forallb_weaken (p q : ascii -> bool) (s : str) :
  (forall c, p c = true -> q c = true) ->
  forallb p s = true -> forallb q s = true.
Proof.
  intros Hpq. induction s as [|c s IH]; simpl; auto.
  intros H. apply andb_true_iff in H. destruct H as [Hc H].
  now rewrite (Hpq _ Hc), IH.
Qed.

Lemma digit_not_sep sep c :
  Py.isdigit sep = false -> Py.isdigit c = true ->
  negb (Ascii.eqb c sep) = true.
Proof.
  intros Hs Hc. apply negb_true_iff. apply Ascii.eqb_neq.
  intros ->. congruence.
Qed.

Lemma all_digits_intro (d : str) :
  forallb Py.isdigit d = true -> 1 <= length d -> Py.all_digits d = true.
Proof.
  intros H L. unfold Py.all_digits. rewrite H.
  destruct d; simpl in *; [lia|reflexivity].
Qed.

Lemma all_digits_forall (d : str) :
  Py.all_digits d = true -> forallb Py.isdigit d = true.
Proof. unfold Py.all_digits. intros H. now apply andb_true_iff in H. Qed.

Lemma to_float_digits (d : str) :
  Py.all_digits d = true ->
  Py.to_float d = inr (Py.float_of_Z (Py.decimal d)).
Proof.
  intros H. unfold Py.to_float.
  rewrite split_none.
  - now rewrite H.
  - apply all_digits_forall in H. revert H. apply forallb_weaken.
    intros c. now apply digit_not_sep.
Qed.

Lemma to_float_point (d1 d2 : str) :
  Py.all_digits d1 = true -> Py.all_digits d2 = true ->
  Py.to_float (d1 ++ "."%char :: d2)
  = inr (Py.float_of_ratio (Py.decimal (d1 ++ d2)) (length d2)).
Proof.
  intros H1 H2. unfold Py.to_float.
  rewrite split_app, !split_none.
  - simpl. now rewrite H1, H2.
  - apply all_digits_forall in H2. revert H2. apply forallb_weaken.
    intros c. now apply digit_not_sep.
  - apply all_digits_forall in H1. revert H1. apply forallb_weaken.
    intros c. now apply digit_not_sep.
Qed.

(** ** Groups of a match *)

Lemma lookup_app i (c1 c2 : caps) :
  lookup i (c1 ++ c2) = match lookup i c1 with
                        | Some t => Some t
                        | None => lookup i c2
                        end.
Proof.
  induction c1 as [|[j t] c1 IH]; simpl; auto.
  destruct (Nat.eqb i j); auto.
Qed.

(** A match captures nothing under a number its pattern does not use. *)
Lemma Matches_lookup_none icase r w c i :
  Matches icase r w c -> ~ In i (groups r) -> lookup i c = None.
Proof.
  induction 1; simpl; intros Hn; auto.
  - rewrite lookup_app, IHMatches2, IHMatches1; auto;
      intros Hi; apply Hn, in_or_app; auto.
  - apply IHMatches. intros Hi; apply Hn, in_or_app; auto.
  - apply IHMatches. intros Hi; apply Hn, in_or_app; auto.
  - destruct (Nat.eqb i i0) eqn:E.
    + apply Nat.eqb_eq in E. subst. exfalso. apply Hn. now left.
    + apply IHMatches. intros Hi. apply Hn. now right.
Qed.

Ltac inv H := inversion H; subst; clear H.

Ltac inv_matches :=
  repeat match goal with
         | H : Matches _ (Cat _ _) _ _ |- _ => inv H
         | H : Matches _ (Group _ _) _ _ |- _ => inv H
         | H : Matches _ (Rep _ _ _) _ _ |- _ => inv H
         | H : Matches _ (Atom _) _ _ |- _ => inv H
         | H : Matches _ (Opt _) _ _ |- _ => inv H
         | H : Matches _ (Alt _ _) _ _ |- _ => inv H
         | H : Matches _ Eps _ _ |- _ => inv H
         end.

Ltac inv_cat :=
  match goal with H : Matches _ (Cat _ _) _ _ |- _ => inv H end.
Ltac inv_group :=
  match goal with H : Matches _ (Group _ _) _ _ |- _ => inv H end.
Ltac inv_rep :=
  match goal with H : Matches _ (Rep _ _ _) _ _ |- _ => inv H end.

Ltac lit_eq :=
  repeat match goal with
         | H : atom_ok false (Lit _) _ = true |- _ =>
             simpl in H; apply Ascii.eqb_eq in H; subst
         end.

Lemma bed_pattern_groups w c :
  Matches false bed_pattern w c ->
  exists d t, lookup 1 c = Some d /\ lookup 2 c = Some t /\
              Py.all_digits d = true.
Proof.
  cbv [bed_pattern cats plus star]. intros H.
  inv_cat. inv_cat. repeat inv_group. repeat inv_rep.
  match goal with
  | H : Matches _ _ _ ?c |- _ =>
      assert (Hn : lookup 1 c = None)
        by (eapply Matches_lookup_none; [exact H|simpl; tauto])
  end.
  eexists. eexists. rewrite !lookup_app. simpl. rewrite Hn.
  split; [reflexivity|]. split; [reflexivity|].
  apply all_digits_intro; assumption.
Qed.

Lemma price_pattern_groups w c :
  Matches false price_pattern w c -> exists t, lookup 1 c = Some t.
Proof.
  cbv [price_pattern plus]. intros H. inv_cat. inv_group. inv_rep.
  eexists. simpl. reflexivity.
Qed.

Lemma bath_pattern_groups w c :
  Matches false bath_pattern w c ->
  exists t x, lookup 1 c = Some t /\ Py.to_float t = inr x.
Proof.
  cbv [bath_pattern cats plus star text lit list_ascii_of_string].
  intros H. inv_matches; lit_eq.
  - eexists; eexists. split; [simpl; reflexivity|].
    rewrite app_nil_r. apply to_float_digits. apply all_digits_intro; assumption.
  - eexists; eexists. split; [simpl; reflexivity|].
    cbn [app]. apply to_float_point; apply all_digits_intro; assumption.
Qed.

Lemma parking_cost_pattern_groups w c :
  Matches false parking_cost_pattern w c ->
  exists d, lookup 1 c = Some d /\ Py.all_digits d = true.
Proof.
  cbv [parking_cost_pattern cats plus star text lit list_ascii_of_string].
  intros H. inv_matches.
  eexists. split; [simpl; reflexivity|]. apply all_digits_intro; assumption.
Qed.

Lemma unit_pattern_groups w c :
  Matches false unit_pattern w c ->
  exists u d1 d2,
    lookup 1 c = Some u /\ lookup 2 c = Some (d1 ++ "/"%char :: d2) /\
    Py.all_digits d1 = true /\ Py.all_digits d2 = true /\
    length d1 <= 2 /\ length d2 <= 2.
Proof.
  cbv [unit_pattern cats plus star times]. intros H. inv_matches; lit_eq.
  do 3 eexists. split; [simpl; reflexivity|]. split; [simpl; reflexivity|].
  repeat split; try (apply all_digits_intro; assumption); assumption.
Qed.

Lemma address_pattern_group w c :
  Matches true address_pattern w c ->
  exists a, lookup 1 c = Some a /\ Py.truthy a = true.
Proof.
  cbv [address_pattern cats times]. intros H. inv_group. inv_cat. inv_rep.
  eexists. split; [simpl; reflexivity|].
  destruct w1; simpl in *; [lia|reflexivity].
Qed.

(** ** The extractors that cannot fail *)

Lemma int_digits (d : str) :
  Py.all_digits d = true -> length d <= Py.int_max_str_digits ->
  Py.int d = inr (Py.decimal d).
Proof.
  intros H L. unfold Py.int. rewrite H.
  apply Nat.leb_le in L. now rewrite L.
Qed.

Lemma bed_group_digits s m :
  search false bed_pattern s = Some m -> Py.all_digits (group m 1) = true.
Proof.
  intros E. apply search_sound in E. destruct E as (? & ? & ? & _ & Mb & _).
  apply bed_pattern_groups in Mb. destruct Mb as (d & t & Hd & _ & Dd).
  unfold group. now rewrite Hd.
Qed.

Lemma bath_group_float s m :
  search false bath_pattern s = Some m ->
  exists x, Py.to_float (group m 1) = inr x.
Proof.
  intros E. apply search_sound in E. destruct E as (? & ? & ? & _ & Mt & _).
  apply bath_pattern_groups in Mt. destruct Mt as (t & y & Ht & Hy).
  unfold group. rewrite Ht, Hy. eauto.
Qed.

Lemma parse_room_type_accepts room_str :
  room_text_ok room_str = true -> exists r, parse_room_type room_str = inr r.
Proof.
  unfold parse_room_type, room_text_ok.
  destruct (search false bed_pattern room_str) as [mb|] eqn:Eb;
    destruct (search false bath_pattern room_str) as [mt|] eqn:Et; intros H.
  all: try (rewrite (int_digits _ (bed_group_digits _ _ Eb))
              by now apply Nat.leb_le).
  all: try (destruct (bath_group_float _ _ Et) as [x ->]).
  all: simpl; eexists; reflexivity.
Qed.

Lemma parse_room_type_rejects room_str :
  room_text_ok room_str = false -> parse_room_type room_str = inl Py.ValueError.
Proof.
  unfold parse_room_type, room_text_ok.
  destruct (search false bed_pattern room_str) as [mb|] eqn:Eb;
    [|discriminate].
  intros H. unfold Py.int. rewrite H, andb_false_r. reflexivity.
Qed.

(** An instance: a bedroom count of 4301 digits. *)
Lemma parse_room_type_rejects_witness :
  room_text_ok long_room_text = false /\
  parse_room_type long_room_text = inl Py.ValueError.
Proof.
  split; [vm_compute; reflexivity|].
  apply (parse_room_type_rejects long_room_text). vm_compute. reflexivity.
Defined.

Lemma parking_group_float s m :
  search false parking_cost_pattern s = Some m ->
  Py.to_float (group m 1) = inr (Py.float_of_Z (Py.decimal (group m 1))).
Proof.
  intros E. apply search_sound in E. destruct E as (? & ? & ? & _ & Mp & _).
  apply parking_cost_pattern_groups in Mp. destruct Mp as (d & Hd & Dd).
  unfold group. rewrite Hd. now apply to_float_digits.
Qed.

Lemma extract_features_returns description :
  exists f, extract_features description = inr f.
Proof.
  unfold extract_features.
  destruct (search false parking_cost_pattern description) as [m|] eqn:E.
  - rewrite (parking_group_float _ _ E). eexists. reflexivity.
  - eexists. reflexivity.
Qed.

(** Wherever the parser reads a group of a match, the group took part
    in the match. *)
Lemma groups_take_part :
  (forall s m, search false price_pattern s = Some m ->
               lookup 1 (m_caps m) <> None) /\
  (forall s m, search false bed_pattern s = Some m ->
               lookup 1 (m_caps m) <> None /\ lookup 2 (m_caps m) <> None) /\
  (forall s m, search false bath_pattern s = Some m ->
               lookup 1 (m_caps m) <> None) /\
  (forall s m, search false parking_cost_pattern s = Some m ->
               lookup 1 (m_caps m) <> None) /\
  (forall s m, search true address_pattern s = Some m ->
               lookup 1 (m_caps m) <> None) /\
  (forall s m, In m (scan false unit_pattern 0 0 s) ->
               lookup 1 (m_caps m) <> None /\ lookup 2 (m_caps m) <> None).
Proof.
  repeat apply conj; intros s m H;
    try (apply search_sound in H; destruct H as (? & w & ? & _ & H & _));
    try (apply scan_sound in H; destruct H as (w & H)).
  - apply price_pattern_groups in H. destruct H as (t & ->). discriminate.
  - apply bed_pattern_groups in H. destruct H as (d & t & -> & -> & _).
    split; discriminate.
  - apply bath_pattern_groups in H. destruct H as (t & y & -> & _).
    discriminate.
  - apply parking_cost_pattern_groups in H. destruct H as (d & -> & _).
    discriminate.
  - apply address_pattern_group in H. destruct H as (a & -> & _).
    discriminate.
  - apply unit_pattern_groups in H.
    destruct H as (u & d1 & d2 & -> & -> & _). split; discriminate.
Qed.

(** ** Unit/date pairs *)

Lemma days_in_month_2026 m :
  (1 <= m <= 12)%Z ->
  Py.days_in_month 2026 m = nth (Z.to_nat (m - 1)) days_of_2026 0%Z.
Proof.
  intros H.
  assert (m = 1 \/ m = 2 \/ m = 3 \/ m = 4 \/ m = 5 \/ m = 6 \/ m = 7 \/
          m = 8 \/ m = 9 \/ m = 10 \/ m = 11 \/ m = 12)%Z as Hm by lia.
  repeat (destruct Hm as [->|Hm]; [reflexivity|]). subst. reflexivity.
Qed.

Lemma make_datetime_2026 m d :
  Py.make_datetime 2026 m d
  = if valid_month_day m d then inr (Py.mkdate 2026 m d)
    else inl Py.ValueError.
Proof.
  unfold Py.make_datetime, valid_month_day.
  destruct (1 <=? m)%Z eqn:E1; [|reflexivity].
  destruct (m <=? 12)%Z eqn:E2; [|reflexivity].
  rewrite days_in_month_2026 by lia. reflexivity.
Qed.

Lemma pair_month_shaped d1 d2 :
  Py.all_digits d1 = true -> pair_month (d1 ++ "/"%char :: d2) = Py.decimal d1.
Proof.
  intros H. unfold pair_month.
  rewrite take_while_all by now apply all_digits_forall.
  simpl. now rewrite app_nil_r.
Qed.

Lemma pair_day_shaped d1 d2 :
  Py.all_digits d1 = true -> pair_day (d1 ++ "/"%char :: d2) = Py.decimal d2.
Proof.
  intros H. unfold pair_day.
  rewrite drop_while_all by now apply all_digits_forall.
  reflexivity.
Qed.

Lemma unit_date_2026 o p :
  current_year o = 2026%Z -> date_shaped (snd p) ->
  unit_date o (snd p)
  = if valid_pair p then inr (pair_date p) else inl Py.ValueError.
Proof.
  intros Hy (d1 & d2 & E & D1 & D2 & L1 & L2).
  unfold unit_date, valid_pair, pair_date. rewrite E.
  rewrite pair_month_shaped, pair_day_shaped by assumption.
  rewrite split_app, !split_none.
  - simpl. rewrite !int_digits by (auto; unfold Py.int_max_str_digits; lia).
    simpl. rewrite Hy. apply make_datetime_2026.
  - apply all_digits_forall in D2. revert D2. apply forallb_weaken.
    intros c. now apply digit_not_sep.
  - apply all_digits_forall in D1. revert D1. apply forallb_weaken.
    intros c. now apply digit_not_sep.
Qed.

Lemma findall2_unit_shaped unit_text p :
  In p (findall2 unit_pattern unit_text) -> date_shaped (snd p).
Proof.
  unfold findall2. intros H. apply in_map_iff in H.
  destruct H as (m & <- & Hm). apply scan_sound in Hm.
  destruct Hm as (w & Mw). apply unit_pattern_groups in Mw.
  destruct Mw as (u & d1 & d2 & _ & H2 & D1 & D2 & L1 & L2).
  simpl. unfold group. rewrite H2. now exists d1, d2.
Qed.

Lemma unit_loop o (l : list (str * str)) :
  current_year o = 2026%Z ->
  (forall p, In p l -> date_shaped (snd p)) ->
  forall acc,
    fold_left
      (fun units '(unit_num, date_str) =>
         match unit_date o date_str with
         | inr available_date => units ++ [Unit.mk unit_num available_date]
         | inl Py.ValueError => units
         end) l acc
    = acc ++ map unit_of_pair (filter valid_pair l).
Proof.
  intros Hy. induction l as [|[u ds] l IH]; intros Hs acc; simpl.
  - now rewrite app_nil_r.
  - rewrite IH by (intros; apply Hs; now right).
    pose proof (unit_date_2026 o (u, ds) Hy (Hs _ (or_introl eq_refl))) as E.
    simpl in E. rewrite E.
    destruct (valid_pair (u, ds)); simpl.
    + now rewrite <- app_assoc.
    + reflexivity.
Qed.

(** The unit/date extractor keeps exactly the pairs with a valid date. *)
Lemma parse_unit_numbers_valid o unit_text :
  current_year o = 2026%Z ->
  parse_unit_numbers o unit_text = map unit_of_pair (valid_pairs unit_text).
Proof.
  intros Hy. unfold parse_unit_numbers, valid_pairs.
  rewrite unit_loop; auto.
  intros p. apply findall2_unit_shaped.
Qed.

Lemma parse_unit_numbers_year o o' unit_text :
  current_year o = current_year o' ->
  parse_unit_numbers o unit_text = parse_unit_numbers o' unit_text.
Proof.
  intros Hy. unfold parse_unit_numbers, unit_date. now rewrite Hy.
Qed.

(** ** Prices *)

(** A greedy repetition before a continuation that always succeeds
    takes the longest run. *)
Lemma rep_greedy (R : Type) ok (f : str -> R) s : forall lo,
  rep ok lo None s (fun s' => Some (f s'))
  = if (lo <=? length (take_while ok s))%nat
    then Some (f (drop_while ok s)) else None.
Proof.
  induction s as [|c s IH]; intros lo; simpl.
  - destruct lo; reflexivity.
  - destruct (ok c) eqn:E; simpl.
    + rewrite IH. destruct lo as [|lo]; simpl; [reflexivity|].
      destruct (lo <=? length (take_while ok s))%nat; reflexivity.
    + destruct lo; reflexivity.
Qed.

Lemma firstn_take_while p (s : str) :
  firstn (length s - length (drop_while p s)) s = take_while p s.
Proof.
  rewrite <- (take_drop_while p s) at 1 3.
  apply firstn_consumed.
Qed.

Lemma numeral_group_at s g :
  exec false (Group 1 (plus (Either Digit (Lit ",")))) s g
       (fun s' g' => Some (s', g'))
  = if (1 <=? length (take_while is_numeral_char s))%nat
    then Some (drop_while is_numeral_char s,
               (1, take_while is_numeral_char s) :: g)
    else None.
Proof.
  cbn [exec plus].
  rewrite (rep_greedy _ _ (fun s' => (s', (1, firstn (length s - length s') s) :: g))).
  change (atom_ok false (Either Digit (Lit ","))) with is_numeral_char.
  now rewrite firstn_take_while.
Qed.

Lemma match_at_price s :
  match_at false price_pattern s
  = match (match s with
           | c :: s' => if Ascii.eqb c "$" then price_hit s' else None
           | [] => None
           end) with
    | Some x => Some x
    | None => price_hit s
    end.
Proof.
  unfold match_at, price_pattern, price_hit.
  change (exec false (Cat (Opt (Atom (Lit "$"))) (Group 1 (plus (Either Digit (Lit ",")))))
            s [] (fun s' g => Some (s', g)))
    with (match
             match s with
             | c :: s' =>
                 if Ascii.eqb c "$"
                 then exec false (Group 1 (plus (Either Digit (Lit ",")))) s' []
                        (fun s'' g'' => Some (s'', g''))
                 else None
             | [] => None
             end
           with
           | Some x => Some x
           | None =>
               exec false (Group 1 (plus (Either Digit (Lit ",")))) s []
                    (fun s'' g'' => Some (s'', g''))
           end).
  destruct s as [|c s].
  - now rewrite numeral_group_at.
  - destruct (Ascii.eqb c "$"); rewrite !numeral_group_at; reflexivity.
Qed.

Lemma price_hit_some s x :
  price_hit s = Some x ->
  first_numeral s = Some (take_while is_numeral_char s) /\
  lookup 1 (snd x) = Some (take_while is_numeral_char s).
Proof.
  unfold price_hit, first_numeral. destruct s as [|c s]; simpl; [discriminate|].
  destruct (is_numeral_char c) eqn:E; simpl; [|discriminate].
  intros H. inversion H; subst. simpl. rewrite E. auto.
Qed.

Lemma price_hit_none s :
  price_hit s = None ->
  match s with c :: _ => is_numeral_char c = false | [] => True end.
Proof.
  unfold price_hit. destruct s as [|c s]; simpl; auto.
  destruct (is_numeral_char c); simpl; [discriminate|reflexivity].
Qed.

(** The group of the leftmost price match is the first numeral. *)
Lemma search_price s : forall pos,
  option_map (fun m => group m 1) (search_from false price_pattern pos s)
  = first_numeral s.
Proof.
  induction s as [|c s IH]; intros pos.
  - reflexivity.
  - cbn [search_from]. rewrite match_at_price.
    destruct (Ascii.eqb c "$") eqn:Ec.
    + apply Ascii.eqb_eq in Ec. subst c.
      destruct (price_hit s) as [x|] eqn:Eh.
      * destruct x as [rest g]. apply price_hit_some in Eh.
        destruct Eh as [Ef Eg]. simpl in Eg. cbn [option_map].
        unfold group. cbn [m_caps]. rewrite Eg.
        unfold first_numeral in *. simpl. exact (eq_sym Ef).
      * assert (price_hit ("$"%char :: s) = None) as -> by reflexivity.
        rewrite IH. reflexivity.
    + destruct (price_hit (c :: s)) as [x|] eqn:Eh.
      * destruct x as [rest g]. apply price_hit_some in Eh.
        destruct Eh as [Ef Eg]. simpl in Eg. cbn [option_map].
        unfold group. cbn [m_caps]. rewrite Eg. exact (eq_sym Ef).
      * apply price_hit_none in Eh. rewrite IH.
        unfold first_numeral. simpl. now rewrite Eh.
Qed.

Lemma parse_price_first_numeral s :
  parse_price s
  = match first_numeral s with
    | Some t =>
        bindE (Py.to_float (Py.replace "," [] t)) (fun x => inr (Some x))
    | None => inr None
    end.
Proof.
  unfold parse_price, search. rewrite <- (search_price s 0).
  destruct (search_from false price_pattern 0 s); reflexivity.
Qed.

Lemma take_while_forall p (s : str) : forallb p (take_while p s) = true.
Proof.
  induction s as [|c s IH]; simpl; auto.
  destruct (p c) eqn:E; simpl; auto. now rewrite E.
Qed.

Lemma first_numeral_chars s t :
  first_numeral s = Some t -> forallb is_numeral_char t = true.
Proof.
  unfold first_numeral.
  destruct (drop_while (fun c => negb (is_numeral_char c)) s) as [|a s0];
    [discriminate|].
  intros H. injection H as <-.
  exact (take_while_forall is_numeral_char (a :: s0)).
Qed.

Lemma first_numeral_none s :
  first_numeral s = None <->
  forallb (fun c => negb (is_numeral_char c)) s = true.
Proof.
  unfold first_numeral. induction s as [|c s IH]; simpl; [tauto|].
  destruct (is_numeral_char c); simpl; [|exact IH].
  split; discriminate.
Qed.

Lemma strip_separators_digits t :
  forallb is_numeral_char t = true ->
  forallb Py.isdigit (Py.replace "," [] t) = true.
Proof.
  unfold Py.replace. induction t as [|c t IH]; simpl; auto.
  intros H. apply andb_true_iff in H. destruct H as [Hc H].
  unfold is_numeral_char in Hc.
  destruct (Ascii.eqb c ","); simpl; auto.
  rewrite orb_false_r in Hc. now rewrite Hc, IH.
Qed.

Lemma strip_separators_truthy t :
  forallb is_numeral_char t = true ->
  Py.truthy (Py.replace "," [] t) = existsb Py.isdigit t.
Proof.
  unfold Py.replace. induction t as [|c t IH]; simpl; auto.
  intros H. apply andb_true_iff in H. destruct H as [Hc H].
  unfold is_numeral_char in Hc.
  destruct (Ascii.eqb c ",") eqn:Ec.
  - apply Ascii.eqb_eq in Ec. subst c. simpl. auto.
  - rewrite orb_false_r in Hc. simpl. now rewrite Hc.
Qed.

(** Without its separators a numeral is a run of digits, empty exactly
    when the numeral holds no digit. *)
Lemma strip_separators t :
  forallb is_numeral_char t = true ->
  Py.all_digits (Py.replace "," [] t) = existsb Py.isdigit t.
Proof.
  intros H. unfold Py.all_digits.
  rewrite strip_separators_truthy, strip_separators_digits by assumption.
  apply andb_true_r.
Qed.

Lemma parse_price_accepts s :
  price_token_ok s = true -> exists p, parse_price s = inr p.
Proof.
  unfold price_token_ok. rewrite parse_price_first_numeral.
  destruct (first_numeral s) as [t|] eqn:E; [|eauto].
  intros H. rewrite to_float_digits; [simpl; eauto|].
  rewrite strip_separators; auto. eapply first_numeral_chars; eauto.
Qed.

Lemma parse_price_rejects s :
  price_token_ok s = false -> parse_price s = inl Py.ValueError.
Proof.
  unfold price_token_ok. rewrite parse_price_first_numeral.
  destruct (first_numeral s) as [t|] eqn:E; [|discriminate].
  intros H. apply first_numeral_chars in E.
  assert (D : Py.all_digits (Py.replace "," [] t) = false)
    by (rewrite strip_separators; auto).
  unfold Py.to_float. rewrite split_none.
  - now rewrite D.
  - generalize (strip_separators_digits t E). apply forallb_weaken.
    intros c. now apply digit_not_sep.
Qed.

(** An instance: a currency symbol and a separator. *)
Lemma parse_price_rejects_witness :
  price_token_ok "$," = false /\ parse_price "$," = inl Py.ValueError.
Proof.
  split; [reflexivity|].
  apply (parse_price_rejects (lit "$,")). reflexivity.
Defined.

(** ** The parser and its state-free reading *)

Lemma stamp_app w fs : forall t0 gs,
  stamp w t0 (fs ++ gs) = stamp w t0 fs ++ stamp w (t0 + length fs) gs.
Proof.
  induction fs as [|f fs IH]; intros t0 gs; simpl.
  - now rewrite Nat.add_0_r.
  - rewrite IH. now rewrite Nat.add_succ_r.
Qed.

Lemma stamp_length w fs : forall t0, length (stamp w t0 fs) = length fs.
Proof. induction fs as [|f fs IH]; intros t0; simpl; auto. Qed.

Lemma emit_nil w m : emit w m [] = m.
Proof.
  destruct m as [[p y l] t]. unfold emit. simpl.
  now rewrite app_nil_r, Nat.add_0_r.
Qed.

Lemma emit_app w m fs gs : emit w (emit w m fs) gs = emit w m (fs ++ gs).
Proof.
  unfold emit. simpl. rewrite stamp_app, length_app, <- app_assoc.
  now rewrite Nat.add_assoc.
Qed.

Lemma emit_year w m fs : current_year (self (emit w m fs)) = current_year (self m).
Proof. reflexivity. Qed.

(** The loop over the units appends one stamped record per unit. *)
Lemma for_each_emit w (mk : Unit.t -> template) units : forall m,
  for_each units
    (fun unit_info =>
       now <- datetime_now w ;; listings_append (mk unit_info now)) m
  = Returns tt (emit w m (map mk units)).
Proof.
  induction units as [|u units IH]; intros m.
  - simpl. unfold ret. now rewrite emit_nil.
  - cbn [for_each map]. unfold bind at 1.
    unfold bind at 1. unfold datetime_now, listings_append. cbn [self ticks].
    rewrite IH. f_equal. unfold emit. cbn.
    rewrite <- app_assoc. now rewrite Nat.add_succ_r.
Qed.

Lemma parse_listing_line_pure w line a m :
  _parse_listing_line w line a m
  = match line_templates (self m) line a with
    | inr fs => Returns tt (emit w m fs)
    | inl e => Raises e m
    end.
Proof.
  unfold _parse_listing_line, line_templates.
  destruct (Py.split1 " " line) as [|price_part [|rest tl]];
    try (unfold ret; now rewrite emit_nil).
  unfold bind at 1. unfold lift at 1.
  destruct (parse_price price_part) as [e|price]; [reflexivity|].
  cbn [bindE].
  destruct (search false unit_marker_pattern rest) as [um|];
    [|unfold ret; now rewrite emit_nil].
  unfold Py.slice_to, Py.slice_from.
  unfold bind at 1. unfold lift at 1.
  destruct (parse_room_type (Py.strip (firstn (m_start um) rest)))
    as [e|room]; [reflexivity|].
  destruct (extract_features_returns
              (line ++ lit " " ++ Py.strip (skipn (m_end um) rest)))
    as [feat Hfeat].
  rewrite Hfeat. cbn [bindE].
  unfold bind, lift, get_self. apply for_each_emit.
Qed.

Lemma line_templates_year o o' line a :
  current_year o = current_year o' ->
  line_templates o line a = line_templates o' line a.
Proof.
  intros Hy. unfold line_templates.
  destruct (Py.split1 " " line) as [|price_part [|rest tl]]; auto.
  destruct (parse_price price_part); auto. cbn [bindE].
  destruct (search false unit_marker_pattern rest) as [um|]; auto.
  now rewrite (parse_unit_numbers_year o o' _ Hy).
Qed.

Lemma walk_templates_year o o' lines :
  current_year o = current_year o' ->
  forall ctx, walk_templates o lines ctx = walk_templates o' lines ctx.
Proof.
  intros Hy. induction lines as [|l ls IH]; intros ctx; simpl; auto.
  destruct (search true address_pattern (Py.strip l)); auto.
  destruct ctx as [a|]; auto.
  rewrite (line_templates_year o o' _ _ Hy), IH. reflexivity.
Qed.

Lemma parse_lines_pure w lines : forall ctx m,
  parse_lines w lines ctx m
  = match walk_templates (self m) lines ctx with
    | (fs, None) => Returns tt (emit w m fs)
    | (fs, Some e) => Raises e (emit w m fs)
    end.
Proof.
  induction lines as [|l ls IH]; intros ctx m.
  - simpl. unfold ret. now rewrite emit_nil.
  - cbn [parse_lines walk_templates].
    destruct (search true address_pattern (Py.strip l)) as [am|]; [apply IH|].
    destruct ctx as [a|]; [|apply IH].
    destruct (Py.startswith "$" (Py.strip l) && Py.truthy a); [|apply IH].
    unfold bind. rewrite parse_listing_line_pure.
    destruct (line_templates (self m) (Py.strip l) a) as [e|fs].
    + now rewrite emit_nil.
    + rewrite IH.
      rewrite (walk_templates_year (self (emit w m fs)) (self m) ls
                 (emit_year w m fs)).
      destruct (walk_templates (self m) ls (Some a)) as [gs [e|]];
        now rewrite emit_app.
Qed.

Lemma run_pure w path :
  run w path
  = match walk_templates (__init__ path) (lines_of w path) None with
    | (fs, None) =>
        Returns (stamp w 0 fs) (emit w (mkMachine (__init__ path) 0) fs)
    | (fs, Some e) => Raises e (emit w (mkMachine (__init__ path) 0) fs)
    end.
Proof.
  unfold run, parse_all, lines_of. unfold bind at 1. unfold get_self at 1.
  cbn [self]. unfold bind at 1. rewrite parse_lines_pure. cbn [self].
  destruct (walk_templates (__init__ path)
              (Py.split Py.newline (extract_text w (__init__ path))) None)
    as [fs [e|]]; reflexivity.
Qed.

Lemma split1_none sep (s : str) :
  ~ In sep s -> Py.split1 sep s = [s].
Proof.
  induction s as [|c s IH]; simpl; auto.
  intros H. destruct (Ascii.eqb c sep) eqn:E.
  - apply Ascii.eqb_eq in E. subst. tauto.
  - rewrite IH by tauto. reflexivity.
Qed.

Lemma stamp_in w fs : forall t0 r,
  In r (stamp w t0 fs) -> exists f t, In f fs /\ r = f t.
Proof.
  induction fs as [|f fs IH]; intros t0 r H; simpl in H; [contradiction|].
  destruct H as [<-|H].
  - exists f, (clock w t0). split; auto. now left.
  - apply IH in H. destruct H as (g & t & Hg & ->).
    exists g, t. split; auto. now right.
Qed.

(** A field that does not depend on the time stamp can be read off the
    templates. *)
Lemma stamp_map (B : Type) (g : Listing -> B) w fs :
  (forall f, In f fs -> forall t, g (f t) = g (f 0%Z)) ->
  forall t0, map g (stamp w t0 fs) = map (fun f => g (f 0%Z)) fs.
Proof.
  induction fs as [|f fs IH]; intros H t0; simpl; auto.
  rewrite (H f (or_introl eq_refl)), IH; auto.
  intros f' Hf'. apply H. now right.
Qed.

(** What a line gives when its price token is accepted: one template
    per valid unit/date pair, built from one price, one room
    configuration and one set of features. *)
Lemma line_templates_ok o line a :
  current_year o = 2026%Z ->
  line_ok line = true ->
  exists price room feat,
    line_templates o line a
    = inr (map (fun p => make_listing line a price room feat (unit_of_pair p))
               (line_pairs line)).
Proof.
  intros Hy Hok. apply andb_true_iff in Hok. destruct Hok as [Hp Hr].
  unfold line_templates, line_pairs, price_token, room_fragment in *.
  destruct (parse_room_type_accepts [] eq_refl) as [room0 _].
  destruct (extract_features_returns []) as [feat0 _].
  destruct (Py.split1 " " line) as [|price_part [|rest tl]];
    try (exists None, room0, feat0; reflexivity).
  simpl in Hp. destruct (parse_price_accepts _ Hp) as [price ->]. cbn [bindE].
  destruct (search false unit_marker_pattern rest) as [um|];
    [|exists None, room0, feat0; reflexivity].
  destruct (parse_room_type_accepts _ Hr) as [room ->].
  destruct (extract_features_returns
              (line ++ lit " " ++ Py.strip (skipn (m_end um) rest)))
    as [feat ->].
  cbn [bindE]. rewrite (parse_unit_numbers_valid o _ Hy), map_map.
  now exists price, room, feat.
Qed.

Lemma id_of_make_listing line a price room feat u t :
  listing_id (make_listing line a price room feat u t)
  = id_of (address (make_listing line a price room feat u t))
          (unit_number (make_listing line a price room feat u t)).
Proof.
  unfold id_of. cbn [listing_id address unit_number make_listing].
  change (lit ", Isla Vista, CA 93117") with address_suffix.
  now rewrite firstn_consumed.
Qed.

Lemma line_templates_shape o line a fs :
  line_templates o line a = inr fs -> Forall is_template fs.
Proof.
  unfold line_templates.
  destruct (Py.split1 " " line) as [|price_part [|rest tl]];
    try (intros H; inversion H; constructor).
  destruct (parse_price price_part) as [e|price]; [discriminate|]. cbn [bindE].
  destruct (search false unit_marker_pattern rest) as [um|];
    [|intros H; inversion H; constructor].
  destruct (parse_room_type _) as [e|room]; [discriminate|]. cbn [bindE].
  destruct (extract_features _) as [e|feat]; [discriminate|]. cbn [bindE].
  intros H. inversion H; subst. apply Forall_forall. intros f Hf.
  apply in_map_iff in Hf. destruct Hf as (u & <- & _).
  now exists line, a, price, room, feat, u.
Qed.

Lemma walk_templates_shape o lines : forall ctx,
  Forall is_template (fst (walk_templates o lines ctx)).
Proof.
  induction lines as [|l ls IH]; intros ctx; simpl; [constructor|].
  destruct (search true address_pattern (Py.strip l)); [apply IH|].
  destruct ctx as [a|]; [|apply IH].
  destruct (Py.startswith "$" (Py.strip l) && Py.truthy a); [|apply IH].
  destruct (line_templates o (Py.strip l) a) as [e|fs] eqn:E; [constructor|].
  specialize (IH (Some a)).
  destruct (walk_templates o ls (Some a)) as [gs e]. simpl in *.
  apply Forall_app. split; auto. eapply line_templates_shape; eauto.
Qed.

Lemma walk_templates_skip o pre post :
  Forall no_address pre ->
  walk_templates o (pre ++ post) None = walk_templates o post None.
Proof.
  induction 1 as [|l pre Hl _ IH]; simpl; auto.
  unfold no_address in Hl. now rewrite Hl.
Qed.

(** The triples of a walk whose price tokens are all accepted. *)
Lemma walk_templates_occurrences w o lines :
  current_year o = 2026%Z ->
  Forall listing_line_ok lines ->
  forall ctx,
    (forall a, ctx = Some a -> Py.truthy a = true) ->
    snd (walk_templates o lines ctx) = None /\
    forall t0,
      map triple (stamp w t0 (fst (walk_templates o lines ctx)))
      = occurrences ctx lines.
Proof.
  intros Hy. induction 1 as [|l ls Hl _ IH]; intros ctx Hctx; simpl.
  - split; auto.
  - destruct (search true address_pattern (Py.strip l)) as [am|] eqn:Ea.
    + apply IH. intros a Ha. inversion Ha; subst.
      apply search_sound in Ea. destruct Ea as (? & ? & ? & _ & Ma & _).
      apply address_pattern_group in Ma. destruct Ma as (a' & Ha' & Ta).
      unfold group. now rewrite Ha'.
    + destruct ctx as [a|]; [|now apply IH].
      rewrite (Hctx a eq_refl), andb_true_r.
      destruct (Py.startswith "$" (Py.strip l)) eqn:Es; [|now apply IH].
      destruct (line_templates_ok o (Py.strip l) a Hy (Hl Es))
        as (price & room & feat & ->).
      destruct (IH (Some a) Hctx) as [He Ht].
      destruct (walk_templates o ls (Some a)) as [gs e]. simpl in *.
      split; auto. intros t0.
      rewrite stamp_app, map_app, Ht. f_equal.
      rewrite stamp_map by (intros f Hf t; apply in_map_iff in Hf;
                            destruct Hf as (p & <- & _); reflexivity).
      rewrite map_map. reflexivity.
Qed.

(** * The claims *)

(** ** C1 *)

(** C1, as stated, fails: the two records of a line that names two
    units differ in [listing_id] as well, not only in [unit_number] and
    [available_date]. *)
Lemma listing_line_ids_differ :
  match _parse_listing_line (still []) two_unit_line segovia fresh with
  | Returns _ m' =>
      ~ (forall r1 r2,
            In r1 (listings (self m')) -> In r2 (listings (self m')) ->
            differ_only_in_unit_and_date r1 r2)
  | Raises _ _ => False
  end.
Proof.
  set (o := _parse_listing_line _ _ _ _). vm_compute in o. subst o.
  cbv beta iota. intros H.
  specialize (H _ _ (or_introl eq_refl) (or_intror (or_introl eq_refl))).
  destruct H as [Hid _]. vm_compute in Hid. discriminate Hid.
Qed.

(** C1, amended: for a listing line whose price token and bedroom
    count are accepted and whose remainder holds a unit marker, the
    assembler appends exactly
    one record per unit/date pair with a valid date found after the
    marker, in order; the records agree on every field other than
    [unit_number], [available_date], [listing_id] and [scraped_date],
    and the [listing_id] of each is the one its address and unit number
    determine. *)
Theorem listing_line_expands w line a m price_part rest tl um :
  Py.split1 " " line = price_part :: rest :: tl ->
  search false unit_marker_pattern rest = Some um ->
  price_token_ok price_part = true ->
  room_text_ok (Py.strip (firstn (m_start um) rest)) = true ->
  current_year (self m) = 2026%Z ->
  let pairs := valid_pairs (Py.strip (skipn (m_end um) rest)) in
  exists recs m',
    _parse_listing_line w line a m = Returns tt m' /\
    listings (self m') = listings (self m) ++ recs /\
    length recs = length pairs /\
    map (fun r => (unit_number r, available_date r)) recs
    = map (fun p => (fst p, pair_date p)) pairs /\
    (forall r1 r2, In r1 recs -> In r2 recs ->
                   shared_fields r1 = shared_fields r2) /\
    (forall r, In r recs -> listing_id r = id_of (address r) (unit_number r)).
Proof.
  intros Hs Hm Hp Hr Hy pairs.
  assert (Hp' : line_ok line = true).
  { unfold line_ok, price_token, room_fragment. rewrite Hs, Hm. simpl.
    now rewrite Hp, Hr. }
  destruct (line_templates_ok (self m) line a Hy Hp')
    as (price & room & feat & Ht).
  assert (Hl : line_pairs line = pairs)
    by (unfold line_pairs; now rewrite Hs, Hm).
  rewrite Hl in Ht.
  set (mk := fun p => make_listing line a price room feat (unit_of_pair p)) in *.
  exists (stamp w (ticks m) (map mk pairs)), (emit w m (map mk pairs)).
  split; [rewrite parse_listing_line_pure, Ht; reflexivity|].
  split; [reflexivity|].
  split; [now rewrite stamp_length, length_map|].
  split.
  { rewrite stamp_map; [now rewrite map_map|].
    intros f Hf t. apply in_map_iff in Hf. now destruct Hf as (p & <- & _). }
  split.
  - intros r1 r2 H1 H2.
    apply stamp_in in H1. destruct H1 as (f1 & t1 & Hf1 & ->).
    apply stamp_in in H2. destruct H2 as (f2 & t2 & Hf2 & ->).
    apply in_map_iff in Hf1. destruct Hf1 as (p1 & <- & _).
    apply in_map_iff in Hf2. destruct Hf2 as (p2 & <- & _).
    reflexivity.
  - intros r Hin. apply stamp_in in Hin. destruct Hin as (f & t & Hf & ->).
    apply in_map_iff in Hf. destruct Hf as (p & <- & _).
    apply id_of_make_listing.
Qed.

(** An instance: the line with two units. *)
Lemma listing_line_expands_witness :
  exists recs m',
    _parse_listing_line (ticking []) two_unit_line segovia fresh
    = Returns tt m' /\
    listings (self m') = listings (self fresh) ++ recs /\
    length recs = 2 /\
    map (fun r => (unit_number r, available_date r)) recs
    = [(lit "A101", Py.mkdate 2026 8 15); (lit "A102", Py.mkdate 2026 9 1)] /\
    (forall r1 r2, In r1 recs -> In r2 recs ->
                   shared_fields r1 = shared_fields r2) /\
    (forall r, In r recs -> listing_id r = id_of (address r) (unit_number r)).
Proof.
  exact (listing_line_expands (ticking []) two_unit_line segovia fresh
           (lit "$3,250")
           (lit "2 Bed / 2 Bath Units #A101 (8/15), A102 (9/1)") []
           (mkmatch 15 22 [])
           eq_refl eq_refl eq_refl eq_refl eq_refl).
Defined.

(** ** C2 *)

(** C2: the example of the specification.  After the address line
    [6543 Segovia Rd], the listing line gives exactly one record, with
    that address, price 3250, two bedrooms, two bathrooms, unit [A101]
    and the date 15 August 2026. *)
Theorem spec_example clk path :
  exists r m',
    run (mkWorld (fun _ => [spec_example_page]) clk) path = Returns [r] m' /\
    address r = segovia ++ address_suffix /\
    price_monthly r = Some (Py.float_of_Z 3250) /\
    Py.float_int_value (Py.float_of_Z 3250) = Some 3250%Z /\
    bedrooms r = Some 2%Z /\
    bathrooms r = Some (Py.float_of_Z 2) /\
    Py.float_int_value (Py.float_of_Z 2) = Some 2%Z /\
    unit_number r = lit "A101" /\
    available_date r = Py.mkdate 2026 8 15.
Proof.
  eexists. eexists. split.
  - vm_compute. reflexivity.
  - repeat split; vm_compute; reflexivity.
Qed.

(** ** C3 *)

Lemma lines_of_pages w1 w2 path :
  pdf_pages w1 path = pdf_pages w2 path -> lines_of w1 path = lines_of w2 path.
Proof.
  intros H. unfold lines_of, extract_text. cbn [pdf_path __init__].
  now rewrite H.
Qed.

Lemma template_id_timeless f :
  is_template f -> forall t, listing_id (f t) = listing_id (f 0%Z).
Proof. intros (line & a & price & room & feat & u & ->) t. reflexivity. Qed.

Lemma template_id_of f :
  is_template f -> forall t,
    listing_id (f t) = id_of (address (f t)) (unit_number (f t)).
Proof.
  intros (line & a & price & room & feat & u & ->) t.
  apply id_of_make_listing.
Qed.

(** C3: [listing_id] is the function [id_of] of the record's address
    and unit number, and two runs over the same document, whatever
    their clocks, end alike: both return, with the same ids in the same
    order and the same number of records, or both raise the same
    exception.  A run is what the pipeline does: a new object, then
    [parse_all]. *)
Theorem listing_ids_reproducible w1 w2 path :
  pdf_pages w1 path = pdf_pages w2 path ->
  match run w1 path, run w2 path with
  | Returns l1 _, Returns l2 _ =>
      map listing_id l1 = map listing_id l2 /\
      length l1 = length l2 /\
      (forall r, In r l1 \/ In r l2 ->
                 listing_id r = id_of (address r) (unit_number r))
  | Raises e1 _, Raises e2 _ => e1 = e2
  | _, _ => False
  end.
Proof.
  intros H. rewrite !run_pure, (lines_of_pages w1 w2 path H).
  pose proof (walk_templates_shape (__init__ path) (lines_of w2 path) None) as Hs.
  destruct (walk_templates (__init__ path) (lines_of w2 path) None)
    as [fs [e|]]; [reflexivity|].
  simpl in Hs. rewrite Forall_forall in Hs.
  split; [|split].
  - rewrite !stamp_map; auto; intros f Hf; apply template_id_timeless; auto.
  - now rewrite !stamp_length.
  - intros r [Hr|Hr]; apply stamp_in in Hr;
      destruct Hr as (f & t & Hf & ->); apply template_id_of; auto.
Qed.

(** An instance: the example document under a still and a running clock. *)
Lemma listing_ids_reproducible_witness :
  pdf_pages (still spec_example_page) (lit "kamap_availability.pdf")
  = pdf_pages (ticking spec_example_page) (lit "kamap_availability.pdf") /\
  match run (still spec_example_page) (lit "kamap_availability.pdf"),
        run (ticking spec_example_page) (lit "kamap_availability.pdf") with
  | Returns l1 _, Returns l2 _ =>
      map listing_id l1 = map listing_id l2 /\
      length l1 = length l2 /\
      (forall r, In r l1 \/ In r l2 ->
                 listing_id r = id_of (address r) (unit_number r))
  | Raises e1 _, Raises e2 _ => e1 = e2
  | _, _ => False
  end.
Proof.
  split; [reflexivity|].
  apply (listing_ids_reproducible (still spec_example_page)
           (ticking spec_example_page) (lit "kamap_availability.pdf")).
  reflexivity.
Defined.

(** A second call of [parse_all] on the same object does not start
    anew: the records of the first call are still in [self.listings]. *)
Lemma parse_all_again :
  match parse_all (still spec_example_page) fresh with
  | Returns l1 m1 =>
      match parse_all (still spec_example_page) m1 with
      | Returns l2 _ => length l1 = 1 /\ length l2 = 2
      | Raises _ _ => False
      end
  | Raises _ _ => False
  end.
Proof. vm_compute. split; reflexivity. Qed.

(** ** C4 *)

Lemma stamp_clock w w' fs :
  (forall k, clock w k = clock w' k) ->
  forall t0, stamp w t0 fs = stamp w' t0 fs.
Proof.
  intros Hc. induction fs as [|f fs IH]; intros t0; simpl; auto.
  now rewrite Hc, IH.
Qed.

(** C4: the lines before the first address line give no record and no
    error, whatever they hold.  A document whose lines are those of
    another document after some lines among which none is an address
    line is parsed exactly as that other document. *)
Theorem no_record_before_address w w' path pre :
  (forall k, clock w k = clock w' k) ->
  lines_of w path = pre ++ lines_of w' path ->
  Forall no_address pre ->
  run w path = run w' path.
Proof.
  intros Hc Hl Hn. rewrite !run_pure, Hl.
  rewrite (walk_templates_skip _ _ _ Hn).
  destruct (walk_templates (__init__ path) (lines_of w' path) None)
    as [fs [e|]]; unfold emit; cbn [ticks];
    now rewrite !(stamp_clock w w' fs Hc).
Qed.

(** An instance: a listing line above the first address line. *)
Lemma no_record_before_address_witness :
  run (ticking (two_lines one_unit_line spec_example_page))
      (lit "kamap_availability.pdf")
  = run (ticking spec_example_page) (lit "kamap_availability.pdf").
Proof.
  apply (no_record_before_address
           (ticking (two_lines one_unit_line spec_example_page))
           (ticking spec_example_page)
           (lit "kamap_availability.pdf") [one_unit_line]).
  - reflexivity.
  - reflexivity.
  - repeat constructor.
Defined.

(** A document without any address line gives no record. *)
Lemma no_address_no_record w path :
  Forall no_address (lines_of w path) ->
  run w path = Returns [] (mkMachine (__init__ path) 0).
Proof.
  intros Hn. rewrite run_pure.
  rewrite <- (app_nil_r (lines_of w path)), (walk_templates_skip _ _ _ Hn).
  reflexivity.
Qed.

(** An instance: a document of listing lines only. *)
Lemma no_address_no_record_witness :
  run (ticking (two_lines one_unit_line two_unit_line))
      (lit "kamap_availability.pdf")
  = Returns [] fresh.
Proof.
  apply (no_address_no_record (ticking (two_lines one_unit_line two_unit_line))
           (lit "kamap_availability.pdf")).
  repeat constructor.
Defined.

(** ** C5 *)

(** C5, as stated, fails: a fragment without a currency symbol is not
    reported as absent when it holds a numeral. *)
Lemma price_without_currency_symbol :
  ~ (parse_price "1200" = inr None <-> has_currency_numeral "1200" = false).
Proof.
  intros [_ H]. specialize (H eq_refl). vm_compute in H. discriminate H.
Qed.

(** C5, amended: the price extractor reads the first run of digits and
    thousands separators of the fragment, whether or not a currency
    symbol precedes it.  It returns the absent marker, never zero,
    exactly when the fragment holds no digit and no separator; when the
    run holds a digit it returns the number its digits write. *)
Theorem price_extractor s :
  (parse_price s = inr None <->
   forallb (fun c => negb (is_numeral_char c)) s = true) /\
  (forall t,
      first_numeral s = Some t -> existsb Py.isdigit t = true ->
      parse_price s
      = inr (Some (Py.float_of_Z (Py.decimal (Py.replace "," [] t))))).
Proof.
  split.
  - rewrite <- first_numeral_none, parse_price_first_numeral.
    destruct (first_numeral s) as [t|]; [|tauto].
    split; [|discriminate].
    destruct (Py.to_float (Py.replace "," [] t)); discriminate.
  - intros t Ht Hd. rewrite parse_price_first_numeral, Ht.
    rewrite to_float_digits; [reflexivity|].
    rewrite strip_separators; auto. eapply first_numeral_chars; eauto.
Qed.

(** ** C6 *)

(** C6 fails on the code: a listing line without a unit marker whose
    price token is a currency symbol and a separator makes the whole
    parse raise [ValueError], because the price is extracted before the
    marker is looked for. *)
Theorem unmarked_line_raises :
  run (still bare_separator_page) "kamap_availability.pdf"
  = Raises Py.ValueError fresh.
Proof. vm_compute. reflexivity. Qed.

(** Where the price token is accepted, a line without a unit marker is
    skipped as C6 says. *)
Lemma unmarked_line_skipped w line a m :
  price_token_ok (price_token line) = true ->
  (forall price_part rest tl,
      Py.split1 " " line = price_part :: rest :: tl ->
      search false unit_marker_pattern rest = None) ->
  _parse_listing_line w line a m = Returns tt m.
Proof.
  intros Hp Hm. unfold _parse_listing_line, price_token in *.
  destruct (Py.split1 " " line) as [|price_part [|rest tl]]; try reflexivity.
  simpl in Hp. destruct (parse_price_accepts _ Hp) as [price Hprice].
  unfold bind, lift. rewrite Hprice, (Hm _ _ _ eq_refl). reflexivity.
Qed.

(** An instance: a line with a price and no unit marker. *)
Lemma unmarked_line_skipped_witness :
  _parse_listing_line (ticking []) "$1,200 studio" segovia fresh
  = Returns tt fresh.
Proof.
  apply (unmarked_line_skipped (ticking []) (lit "$1,200 studio") segovia fresh).
  - reflexivity.
  - intros price_part rest tl H. vm_compute in H. inversion H. reflexivity.
Defined.

(** ** C7 *)

(** C7: the unit/date extractor returns exactly the pairs whose month
    and day form a date of 2026, in the order of the text.  A pair
    whose date is impossible is left out alone: the pairs found before
    and after it are kept or left out as if it were not there.  The
    line is not lost with it: on a listing line whose price token and
    bedroom count are accepted, the assembler appends the records of
    the pairs before and after the impossible one, one record per pair
    with a valid date, in order, each with the unit and the date of its
    pair. *)
Theorem invalid_dates_dropped o unit_text :
  current_year o = 2026%Z ->
  parse_unit_numbers o unit_text
  = map unit_of_pair (filter valid_pair (findall2 unit_pattern unit_text)) /\
  (forall before p after,
      findall2 unit_pattern unit_text = before ++ p :: after ->
      valid_pair p = false ->
      parse_unit_numbers o unit_text
      = map unit_of_pair (filter valid_pair before)
        ++ map unit_of_pair (filter valid_pair after)) /\
  (forall w line a m price_part rest tl um before p after,
      self m = o ->
      Py.split1 " " line = price_part :: rest :: tl ->
      search false unit_marker_pattern rest = Some um ->
      Py.strip (skipn (m_end um) rest) = unit_text ->
      price_token_ok price_part = true ->
      room_text_ok (Py.strip (firstn (m_start um) rest)) = true ->
      findall2 unit_pattern unit_text = before ++ p :: after ->
      valid_pair p = false ->
      exists recs m',
        _parse_listing_line w line a m = Returns tt m' /\
        listings (self m') = listings (self m) ++ recs /\
        length recs
        = length (filter valid_pair before) + length (filter valid_pair after) /\
        map (fun r => (unit_number r, available_date r)) recs
        = map (fun q => (fst q, pair_date q))
              (filter valid_pair before ++ filter valid_pair after) /\
        Forall (fun r => address r = a ++ address_suffix /\
                         description r = Py.strip line) recs).
Proof.
  intros Hy.
  assert (E : parse_unit_numbers o unit_text
              = map unit_of_pair
                    (filter valid_pair (findall2 unit_pattern unit_text)))
    by now apply parse_unit_numbers_valid.
  split; [exact E|]. split.
  - intros before p after Hf Hp. rewrite E, Hf, filter_app. cbn [filter].
    rewrite Hp. apply map_app.
  - intros w line a m price_part rest tl um before p after
           Ho Hs Hm Hu Hprice Hroom Hf Hp.
    subst o.
    assert (Hok : line_ok line = true).
    { unfold line_ok, price_token, room_fragment. rewrite Hs, Hm. simpl.
      now rewrite Hprice, Hroom. }
    destruct (line_templates_ok (self m) line a Hy Hok)
      as (price & room & feat & Ht).
    assert (Hl : line_pairs line
                 = filter valid_pair before ++ filter valid_pair after).
    { unfold line_pairs, valid_pairs. rewrite Hs, Hm, Hu, Hf, filter_app.
      cbn [filter]. now rewrite Hp. }
    rewrite Hl in Ht.
    set (pairs := filter valid_pair before ++ filter valid_pair after) in *.
    set (mk := fun q => make_listing line a price room feat (unit_of_pair q))
      in *.
    exists (stamp w (ticks m) (map mk pairs)), (emit w m (map mk pairs)).
    split; [rewrite parse_listing_line_pure, Ht; reflexivity|].
    split; [reflexivity|].
    split; [subst pairs; now rewrite stamp_length, length_map, length_app|].
    split.
    + rewrite stamp_map; [now rewrite map_map|].
      intros f Hin t. apply in_map_iff in Hin.
      now destruct Hin as (q & <- & _).
    + apply Forall_forall. intros r Hr. apply stamp_in in Hr.
      destruct Hr as (f & t & Hin & ->). apply in_map_iff in Hin.
      destruct Hin as (q & <- & _). split; reflexivity.
Qed.

(** An instance: of four pairs, the two with an impossible date (month
    13, 30 February) are left out, and the line that names them gives
    the records of the two others. *)
Lemma invalid_dates_dropped_witness :
  current_year (__init__ "kamap_availability.pdf") = 2026%Z /\
  parse_unit_numbers (__init__ "kamap_availability.pdf") mixed_fragment
  = [Unit.mk "A101" (Py.mkdate 2026 8 15); Unit.mk "D4" (Py.mkdate 2026 12 31)]
  /\
  exists recs m',
    _parse_listing_line (ticking []) mixed_line segovia fresh
    = Returns tt m' /\
    listings (self m') = listings (self fresh) ++ recs /\
    length recs = 2 /\
    map (fun r => (unit_number r, available_date r)) recs
    = [(lit "A101", Py.mkdate 2026 8 15); (lit "D4", Py.mkdate 2026 12 31)] /\
    Forall (fun r => address r = segovia ++ address_suffix /\
                     description r = Py.strip mixed_line) recs.
Proof.
  split; [reflexivity|]. split.
  - exact (proj1 (invalid_dates_dropped (__init__ "kamap_availability.pdf")
                    mixed_fragment eq_refl)).
  - exact (proj2 (proj2 (invalid_dates_dropped
                           (__init__ "kamap_availability.pdf")
                           mixed_fragment eq_refl))
             (ticking []) mixed_line segovia fresh
             (lit "$3,250")
             (lit "2 Bed / 2 Bath Units #A101 (8/15), B2 (13/1), C3 (2/30), D4 (12/31)")
             [] (mkmatch 15 22 [])
             [(lit "A101", lit "8/15")] (lit "B2", lit "13/1")
             [(lit "C3", lit "2/30"); (lit "D4", lit "12/31")]
             eq_refl eq_refl eq_refl eq_refl eq_refl eq_refl eq_refl eq_refl).
Defined.

(** ** C8 *)

(** C8, as stated, fails: a listing line that occurs twice gives two
    records with the same address, unit number and date. *)
Lemma repeated_line_repeats_record :
  match run (still repeated_page) "kamap_availability.pdf" with
  | Returns l _ => ~ NoDup (map triple l)
  | Raises _ _ => False
  end.
Proof.
  set (o := run _ _). vm_compute in o. subst o. cbv beta iota.
  intros H. inversion H as [|x l Hn _]. apply Hn. now left.
Qed.

(** C8, amended: when every line that starts with the currency symbol
    is accepted by the extractors, the parse returns
    one record per occurrence of a unit/date pair with a valid date on
    a listing line under a known address, in the order of the text; a
    triple that occurs again gives a record again. *)
Theorem one_record_per_occurrence w path :
  Forall listing_line_ok (lines_of w path) ->
  exists recs m',
    run w path = Returns recs m' /\
    map triple recs = occurrences None (lines_of w path).
Proof.
  intros Hp. rewrite run_pure.
  destruct (walk_templates_occurrences w (__init__ path) (lines_of w path)
              eq_refl Hp None) as [He Ht]; [discriminate|].
  destruct (walk_templates (__init__ path) (lines_of w path) None) as [fs e].
  simpl in *. subst e. eexists. eexists. split; [reflexivity|]. apply Ht.
Qed.

(** An instance: the document with the same listing line twice. *)
Lemma one_record_per_occurrence_witness :
  exists recs m',
    run (ticking repeated_page) "kamap_availability.pdf" = Returns recs m' /\
    map triple recs
    = [(segovia ++ address_suffix, lit "A101", Py.mkdate 2026 8 15);
       (segovia ++ address_suffix, lit "A101", Py.mkdate 2026 8 15)].
Proof.
  apply (one_record_per_occurrence (ticking repeated_page)
           (lit "kamap_availability.pdf")).
  repeat (constructor; [intros _; reflexivity|]). constructor.
Defined.

(** ** C9 *)

(** C9: the amenity text is never empty.  It is [None listed] when no
    keyword pattern is found, and otherwise the canonical tags of the
    patterns found, in the order of the table, joined by a comma and a
    blank. *)
Theorem amenities_canonical description :
  exists f,
    extract_features description = inr f /\
    Features.amenities f
    = match amenity_tags description with
      | [] => lit "None listed"
      | tags => Py.join ", " tags
      end /\
    Features.amenities f <> [].
Proof.
  unfold extract_features, amenity_tags, amenity_table.
  cbn [filter map fst snd].
  destruct (search false parking_cost_pattern description) as [m|] eqn:E;
    [rewrite (parking_group_float _ _ E)|];
    cbn [bindE]; eexists; (split; [reflexivity|]);
    cbn [Features.amenities];
    destruct (found_i internet_pattern description),
             (found_i water_trash_pattern description),
             (found_i washer_dryer_pattern description),
             (found_i gas_pattern description);
    (split; [reflexivity|discriminate]).
Qed.

(** ** C10 *)

(** C10: a listing line without a blank gives no record and no error,
    and leaves the state as it was; no extractor is run on it. *)
Theorem single_token_line w line a m :
  ~ In " "%char line ->
  _parse_listing_line w line a m = Returns tt m.
Proof.
  intros H. unfold _parse_listing_line. now rewrite split1_none.
Qed.

(** An instance: a line that is a price token alone, and one that the
    price extractor would refuse. *)
Lemma single_token_line_witness :
  ~ In " "%char (lit "$,") /\
  _parse_listing_line (ticking []) "$," segovia fresh = Returns tt fresh.
Proof.
  split.
  - simpl. intros [H|[H|[]]]; discriminate H.
  - apply (single_token_line (ticking []) (lit "$,") segovia fresh).
    simpl. intros [H|[H|[]]]; discriminate H.
Defined.

(** * What the code keeps *)

(** ** The walk over the lines *)

(** [parse_all], lines 103-116: walking two lists of lines one after
    the other is walking the first and then, unless that raised, the
    second under the address context the first leaves.  An exception
    ends the walk: the lines after the failing one are not read. *)
Theorem parse_lines_app w a b : forall ctx m,
  parse_lines w (a ++ b) ctx m
  = match parse_lines w a ctx m with
    | Returns _ m1 => parse_lines w b (context_after a ctx) m1
    | Raises e m1 => Raises e m1
    end.
Proof.
  induction a as [|l a IH]; intros ctx m; [reflexivity|].
  cbn [app parse_lines context_after].
  destruct (search true address_pattern (Py.strip l)) as [am|]; [apply IH|].
  destruct ctx as [c|]; [|apply IH].
  destruct (Py.startswith "$" (Py.strip l) && Py.truthy c); [|apply IH].
  unfold bind.
  destruct (_parse_listing_line w (Py.strip l) c m) as [[] m1|e m1];
    [apply IH|reflexivity].
Qed.

Lemma extract_text_fold (pages : list str) : forall acc,
  fold_left (fun text page => text ++ page ++ [Py.newline]) pages acc
  = acc ++ flat_map (fun page => page ++ [Py.newline]) pages.
Proof.
  induction pages as [|p ps IH]; intros acc; simpl.
  - now rewrite app_nil_r.
  - rewrite IH. now rewrite <- !app_assoc.
Qed.

Lemma split_pages (pages : list str) :
  Py.split Py.newline (flat_map (fun page => page ++ [Py.newline]) pages)
  = flat_map (Py.split Py.newline) pages ++ [[]].
Proof.
  induction pages as [|p ps IH]; [reflexivity|].
  cbn [flat_map]. rewrite <- app_assoc. cbn [app].
  now rewrite split_app, IH, <- app_assoc.
Qed.

(** [extract_text] and line 105: the lines of the document are the
    lines of the pages, page after page, and one empty line at the
    end.  No line runs over a page boundary, and the address context
    of one page goes on into the next. *)
Theorem document_lines w path :
  lines_of w path
  = flat_map (Py.split Py.newline) (pdf_pages w path) ++ [[]].
Proof.
  unfold lines_of, extract_text. cbn [pdf_path __init__].
  rewrite extract_text_fold. cbn [app]. apply split_pages.
Qed.

Lemma parse_all_pure w m :
  parse_all w m
  = match walk_templates (self m)
            (Py.split Py.newline (extract_text w (self m))) None with
    | (fs, None) => Returns (listings (self (emit w m fs))) (emit w m fs)
    | (fs, Some e) => Raises e (emit w m fs)
    end.
Proof.
  unfold parse_all. unfold bind at 1. unfold get_self at 1.
  unfold bind at 1. rewrite parse_lines_pure.
  destruct (walk_templates (self m)
              (Py.split Py.newline (extract_text w (self m))) None)
    as [fs [e|]]; reflexivity.
Qed.

Lemma stamp_scraped w fs :
  Forall is_template fs ->
  forall t0,
    map scraped_date (stamp w t0 fs) = map (clock w) (seq t0 (length fs)).
Proof.
  induction 1 as [|f fs Hf _ IH]; intros t0; [reflexivity|].
  cbn [stamp map length seq]. rewrite IH. f_equal.
  destruct Hf as (line & a & price & room & feat & u & ->). reflexivity.
Qed.

(** [parse_all] on any object, new or used: it only appends.  The
    records already in [self.listings] stay where they are,
    [pdf_path] and [current_year] are not touched, the records added
    carry the successive clock readings, and the value returned is the
    whole of [self.listings], old records included.  All this holds of
    the state an exception leaves as well. *)
Theorem parse_all_appends w m :
  exists new,
    listings (self (final_state (parse_all w m))) = listings (self m) ++ new /\
    pdf_path (self (final_state (parse_all w m))) = pdf_path (self m) /\
    current_year (self (final_state (parse_all w m))) = current_year (self m) /\
    ticks (final_state (parse_all w m)) = ticks m + length new /\
    map scraped_date new = map (clock w) (seq (ticks m) (length new)) /\
    match parse_all w m with
    | Returns l _ => l = listings (self m) ++ new
    | Raises _ _ => True
    end.
Proof.
  rewrite parse_all_pure.
  pose proof (walk_templates_shape (self m)
                (Py.split Py.newline (extract_text w (self m))) None) as Hs.
  destruct (walk_templates (self m)
              (Py.split Py.newline (extract_text w (self m))) None)
    as [fs e]. cbn [fst] in Hs.
  exists (stamp w (ticks m) fs).
  destruct e as [e|]; cbn [final_state emit self listings pdf_path
                           current_year ticks];
    rewrite stamp_length; repeat split; auto using stamp_scraped.
Qed.

(** ** Floats that come from digits *)

Lemma iter_pos_inv (A : Type) (P : A -> Prop) (f : A -> A) :
  (forall x, P x -> P (f x)) ->
  forall p x, P x -> P (iter_pos f p x).
Proof.
  intros Hf. induction p as [p IH|p IH|]; intros x Hx; simpl; auto.
Qed.

Lemma shr_1_nonneg mrs : (0 <= shr_m mrs)%Z -> (0 <= shr_m (shr_1 mrs))%Z.
Proof.
  destruct mrs as [m r s]. destruct m as [|[p|p|]|p]; simpl; lia.
Qed.

Lemma shr_nonneg mrs e n :
  (0 <= shr_m mrs)%Z -> (0 <= shr_m (fst (shr mrs e n)))%Z.
Proof.
  intros H. destruct n; simpl; auto.
  apply iter_pos_inv; auto. apply shr_1_nonneg.
Qed.

Lemma shr_fexp_nonneg pr em m e l :
  (0 <= m)%Z -> (0 <= shr_m (fst (shr_fexp pr em m e l)))%Z.
Proof.
  intros H. unfold shr_fexp. apply shr_nonneg.
  destruct l as [|[]]; exact H.
Qed.

Lemma round_nearest_even_nonneg m l :
  (0 <= m)%Z -> (0 <= round_nearest_even m l)%Z.
Proof.
  intros H. destruct l as [|[]]; simpl; try lia.
  destruct (Z.even m); lia.
Qed.

(** Rounding a mantissa that is not negative gives no NaN and no
    negative number. *)
Lemma binary_round_aux_nonneg pr em m e l :
  (0 <= m)%Z -> float_nonneg (binary_round_aux pr em false m e l).
Proof.
  intros H. unfold binary_round_aux.
  pose proof (shr_fexp_nonneg pr em m e l H) as H1.
  destruct (shr_fexp pr em m e l) as [mrs1 e1]. cbn [fst] in H1.
  pose proof (shr_fexp_nonneg pr em _ e1 loc_Exact
                (round_nearest_even_nonneg _ (loc_of_shr_record mrs1) H1))
    as H2.
  destruct (shr_fexp pr em
              (round_nearest_even (shr_m mrs1) (loc_of_shr_record mrs1))
              e1 loc_Exact) as [mrs2 e2]. cbn [fst] in H2.
  destruct (shr_m mrs2) as [|p|p]; [reflexivity| |lia].
  destruct (e2 <=? em - pr)%Z; reflexivity.
Qed.

Lemma float_of_Z_nonneg z : (0 <= z)%Z -> float_nonneg (Py.float_of_Z z).
Proof.
  intros H. unfold Py.float_of_Z, binary_normalize.
  destruct z as [|p|p]; [reflexivity| |lia].
  unfold binary_round.
  destruct (shl_align p 0 (fexp Py.prec Py.emax (Z.pos (digits2_pos p) + 0)))
    as [mz ez].
  apply binary_round_aux_nonneg. lia.
Qed.

Lemma float_of_ratio_nonneg m k : float_nonneg (Py.float_of_ratio m k).
Proof.
  unfold Py.float_of_ratio. destruct m as [|p|p]; try reflexivity.
  unfold SFdiv, SFdiv_core_binary.
  set (q := Z.to_pos (10 ^ Z.of_nat k)).
  set (e' := Z.min _ _). set (m' := match (0 - 0 - e')%Z with
                                    | 0%Z => Z.pos p
                                    | Z.pos _ => Z.shiftl (Z.pos p) (0 - 0 - e')
                                    | Z.neg _ => 0%Z
                                    end).
  assert (Hm : (0 <= m')%Z).
  { subst m'. destruct (0 - 0 - e')%Z; try lia.
    apply Z.shiftl_nonneg. lia. }
  pose proof (Z.div_pos m' (Z.pos q) Hm eq_refl) as Hq.
  unfold Z.div in Hq.
  destruct (Z.div_eucl m' (Z.pos q)) as [d r].
  apply binary_round_aux_nonneg. exact Hq.
Qed.

Lemma decimal_nonneg (s : str) : (0 <= Py.decimal s)%Z.
Proof.
  unfold Py.decimal.
  assert (G : forall acc, (0 <= acc)%Z ->
                (0 <= fold_left (fun a c => 10 * a + Py.digit_value c) s acc)%Z).
  { induction s as [|c s IH]; intros acc Ha; cbn [fold_left]; auto.
    apply IH. unfold Py.digit_value. lia. }
  apply G. lia.
Qed.

(** [float] of the texts the parser passes to it is never NaN and
    never negative. *)
Lemma to_float_nonneg (s : str) x :
  Py.to_float s = inr x -> float_nonneg x.
Proof.
  unfold Py.to_float.
  destruct (Py.split "." s) as [|i [|f [|? ?]]]; try discriminate.
  - destruct (Py.all_digits i); [|discriminate].
    intros H. injection H as <-. apply float_of_Z_nonneg, decimal_nonneg.
  - destruct (Py.all_digits i && Py.all_digits f); [|discriminate].
    intros H. injection H as <-. apply float_of_ratio_nonneg.
Qed.

(** ** What the extractors return *)

Lemma parse_price_nonneg s x :
  parse_price s = inr (Some x) -> float_nonneg x.
Proof.
  unfold parse_price.
  destruct (search false price_pattern s) as [m|]; [|discriminate].
  destruct (Py.to_float (Py.replace "," [] (group m 1))) as [e|y] eqn:E;
    [discriminate|].
  intros H. injection H as <-. eapply to_float_nonneg; eauto.
Qed.

Lemma bed_pattern_types w c :
  Matches false bed_pattern w c ->
  exists t, lookup 2 c = Some t /\ In t room_types.
Proof.
  cbv [bed_pattern cats plus star alts text lit list_ascii_of_string].
  intros H. inv_matches; lit_eq; eexists;
    (split; [simpl; reflexivity|]); simpl; tauto.
Qed.

Lemma bed_group_type s m :
  search false bed_pattern s = Some m -> In (group m 2) room_types.
Proof.
  intros E. apply search_sound in E. destruct E as (? & ? & ? & _ & Mb & _).
  apply bed_pattern_types in Mb. destruct Mb as (t & Ht & Hin).
  unfold group. now rewrite Ht.
Qed.

Lemma int_value (d : str) z : Py.int d = inr z -> z = Py.decimal d.
Proof.
  unfold Py.int.
  destruct (Py.all_digits d && (length d <=? Py.int_max_str_digits)%nat);
    [|discriminate].
  intros H. now injection H as <-.
Qed.

(** What [parse_room_type] gives when it returns. *)
Lemma parse_room_type_shape room_str r :
  parse_room_type room_str = inr r ->
  Room.person_capacity r = Room.bedrooms r /\
  opt_float_nonneg (Room.bathrooms r) /\
  ((Room.bedrooms r = None /\ Room.room_type r = lit "Unknown") \/
   (exists z, Room.bedrooms r = Some z /\ (0 <= z)%Z /\
              In (Room.room_type r) room_types)).
Proof.
  unfold parse_room_type.
  destruct (search false bed_pattern room_str) as [mb|] eqn:Eb.
  - destruct (Py.int (group mb 1)) as [e|z] eqn:Ez; [discriminate|].
    apply int_value in Ez. cbn [bindE].
    destruct (search false bath_pattern room_str) as [mt|].
    + destruct (Py.to_float (group mt 1)) as [e|y] eqn:Ey; [discriminate|].
      cbn [bindE]. intros H. injection H as <-. cbn.
      repeat split; [eapply to_float_nonneg; eauto|].
      right. exists z. repeat split; auto.
      * subst z. apply decimal_nonneg.
      * eapply bed_group_type; eauto.
    + cbn [bindE]. intros H. injection H as <-. cbn.
      repeat split. right. exists z. repeat split; auto.
      * subst z. apply decimal_nonneg.
      * eapply bed_group_type; eauto.
  - cbn [bindE].
    destruct (search false bath_pattern room_str) as [mt|].
    + destruct (Py.to_float (group mt 1)) as [e|y] eqn:Ey; [discriminate|].
      cbn [bindE]. intros H. injection H as <-. cbn.
      repeat split; [eapply to_float_nonneg; eauto|]. now left.
    + cbn [bindE]. intros H. injection H as <-. cbn.
      repeat split. now left.
Qed.

Lemma extract_features_parking description f :
  extract_features description = inr f ->
  number_nonneg (Features.parking_cost_yearly f).
Proof.
  unfold extract_features.
  destruct (search false parking_cost_pattern description) as [m|].
  - destruct (Py.to_float (group m 1)) as [e|y] eqn:Ey; [discriminate|].
    cbn [bindE]. intros H. injection H as <-. cbn.
    eapply to_float_nonneg; eauto.
  - cbn [bindE]. intros H. injection H as <-. reflexivity.
Qed.

Lemma unit_pattern_word w c :
  Matches false unit_pattern w c ->
  exists u, lookup 1 c = Some u /\ forallb Py.isword u = true /\
            1 <= length u.
Proof.
  cbv [unit_pattern cats plus star times]. intros H. inv_matches; lit_eq.
  eexists. split; [simpl; reflexivity|]. split; assumption.
Qed.

Lemma findall2_unit_word unit_text p :
  In p (findall2 unit_pattern unit_text) ->
  forallb Py.isword (fst p) = true /\ 1 <= length (fst p).
Proof.
  unfold findall2. intros H. apply in_map_iff in H.
  destruct H as (m & <- & Hm). apply scan_sound in Hm.
  destruct Hm as (w & Mw). apply unit_pattern_word in Mw.
  destruct Mw as (u & H1 & Hw & Hl). simpl. unfold group. now rewrite H1.
Qed.

(** Every unit [parse_unit_numbers] returns comes from a match of the
    unit pattern whose date text gave its date. *)
Lemma parse_unit_numbers_in o unit_text u :
  In u (parse_unit_numbers o unit_text) ->
  exists p,
    In p (findall2 unit_pattern unit_text) /\
    Unit.unit_number u = fst p /\
    unit_date o (snd p) = inr (Unit.available_date u).
Proof.
  unfold parse_unit_numbers.
  assert (G : forall l acc,
             In u (fold_left
                     (fun units '(unit_num, date_str) =>
                        match unit_date o date_str with
                        | inr available_date =>
                            units ++ [Unit.mk unit_num available_date]
                        | inl Py.ValueError => units
                        end) l acc) ->
             In u acc \/
             exists p, In p l /\ Unit.unit_number u = fst p /\
                       unit_date o (snd p) = inr (Unit.available_date u)).
  { induction l as [|[un ds] l IH]; intros acc H; [now left|].
    cbn [fold_left] in H. apply IH in H. destruct H as [H|(p & Hp & H)].
    - destruct (unit_date o ds) as [[]|d] eqn:E; [now left|].
      apply in_app_or in H. destruct H as [H|[<-|[]]]; [now left|].
      right. exists (un, ds). repeat split; auto. now left.
    - right. exists p. split; auto. now right. }
  intros H. apply G in H. destruct H as [[]|H]. exact H.
Qed.

(** A date [unit_date] returns is a date of the calendar, in the year
    of the object. *)
Lemma unit_date_valid o date_str d :
  unit_date o date_str = inr d ->
  Py.year d = current_year o /\
  (1 <= Py.month d <= 12)%Z /\
  (1 <= Py.day d <= Py.days_in_month (Py.year d) (Py.month d))%Z.
Proof.
  unfold unit_date.
  destruct (Py.split "/" date_str) as [|a [|b [|? ?]]]; try discriminate.
  destruct (Py.int a) as [e|mth]; [discriminate|].
  destruct (Py.int b) as [e|dy]; [discriminate|]. cbn [bindE].
  unfold Py.make_datetime.
  destruct ((1 <=? current_year o) && (current_year o <=? 9999)
            && (1 <=? mth) && (mth <=? 12) && (1 <=? dy)
            && (dy <=? Py.days_in_month (current_year o) mth))%Z eqn:E;
    [|discriminate].
  intros H. injection H as <-. cbn.
  repeat (apply andb_true_iff in E; destruct E as [E ?]).
  repeat split; lia.
Qed.

Lemma address_pattern_shape w c :
  Matches true address_pattern w c ->
  lookup 1 c = Some w /\
  exists d sp rest,
    w = d ++ sp ++ rest /\
    forallb Py.isdigit d = true /\ 4 <= length d <= 5 /\
    forallb Py.isspace sp = true /\ 1 <= length sp.
Proof.
  cbv [address_pattern cats times plus]. intros H.
  inv_group. inv_cat. inv_cat. repeat inv_rep.
  split; [simpl; reflexivity|].
  do 3 eexists. split; [reflexivity|]. simpl in *. repeat split; auto.
Qed.

(** ** Where the records come from *)

Lemma line_templates_origin o line a fs :
  line_templates o line a = inr fs ->
  forall f, In f fs -> listing_of_line o line a f.
Proof.
  unfold line_templates, listing_of_line.
  destruct (Py.split1 " " line) as [|price_part [|rest tl]] eqn:Es;
    try (intros H; injection H as <-; intros f []).
  destruct (parse_price price_part) as [e|price] eqn:Ep; [discriminate|].
  cbn [bindE].
  destruct (search false unit_marker_pattern rest) as [um|] eqn:Em;
    [|intros H; injection H as <-; intros f []].
  destruct (parse_room_type _) as [e|room] eqn:Er; [discriminate|].
  cbn [bindE].
  destruct (extract_features _) as [e|feat] eqn:Ef; [discriminate|].
  cbn [bindE]. intros H. injection H as <-. intros f Hf.
  apply in_map_iff in Hf. destruct Hf as (u & <- & Hu).
  exists price_part, rest, tl, um, price, room, feat, u.
  repeat split; auto.
Qed.

Lemma walk_templates_origin o all lines : forall ctx,
  incl lines all ->
  (forall a, ctx = Some a -> address_fragment_of all a) ->
  forall f, In f (fst (walk_templates o lines ctx)) -> origin o all f.
Proof.
  induction lines as [|l ls IH]; intros ctx Hi Hc f Hf;
    [simpl in Hf; contradiction|].
  assert (Hl : In l all) by (apply Hi; now left).
  assert (Hi' : incl ls all) by (intros x Hx; apply Hi; now right).
  cbn [walk_templates] in Hf.
  destruct (search true address_pattern (Py.strip l)) as [am|] eqn:Ea.
  - apply (IH (Some (group am 1))); [exact Hi'| |exact Hf].
    intros a Ha. injection Ha as <-. now exists l, am.
  - destruct ctx as [a|]; [|now apply (IH None)].
    destruct (Py.startswith "$" (Py.strip l) && Py.truthy a) eqn:Es;
      [|now apply (IH (Some a))].
    apply andb_true_iff in Es. destruct Es as [Es _].
    destruct (line_templates o (Py.strip l) a) as [e|fs] eqn:El;
      [simpl in Hf; contradiction|].
    specialize (IH (Some a) Hi' Hc f).
    destruct (walk_templates o ls (Some a)) as [gs e]. cbn [fst] in *.
    apply in_app_or in Hf. destruct Hf as [Hf|Hf]; [|auto].
    exists l, a. repeat split; auto.
    eapply line_templates_origin; eauto.
Qed.

Lemma run_records w path :
  records_of (run w path)
  = stamp w 0 (fst (walk_templates (__init__ path) (lines_of w path) None)).
Proof.
  rewrite run_pure.
  destruct (walk_templates (__init__ path) (lines_of w path) None)
    as [fs [e|]]; reflexivity.
Qed.

(** Every record a run leaves was built by the assembler from a line of
    the document that starts with the currency symbol, under an address
    fragment found in the document. *)
Lemma run_records_origin w path r :
  In r (records_of (run w path)) ->
  exists f t, origin (__init__ path) (lines_of w path) f /\ r = f t.
Proof.
  rewrite run_records. intros H. apply stamp_in in H.
  destruct H as (f & t & Hf & ->). exists f, t. split; auto.
  eapply walk_templates_origin; eauto.
  - apply incl_refl.
  - discriminate.
Qed.

(** ** The records of a run *)

(** [parse_unit_numbers] and line 147-149: whatever the document holds,
    the unit number of every record is a run of word characters that is
    not empty, and its date is a day of the calendar of 2026: the month
    is between 1 and 12 and the day exists in that month. *)
Theorem records_units_and_dates w path :
  Forall (fun r =>
            unit_number r <> [] /\
            forallb Py.isword (unit_number r) = true /\
            Py.year (available_date r) = 2026%Z /\
            (1 <= Py.month (available_date r) <= 12)%Z /\
            (1 <= Py.day (available_date r)
             <= Py.days_in_month 2026 (Py.month (available_date r)))%Z)
         (records_of (run w path)).
Proof.
  apply Forall_forall. intros r Hr. apply run_records_origin in Hr.
  destruct Hr as (f & t & (l & a & _ & _ & _ & _ & Hl) & ->).
  destruct Hl as (pp & rest & tl & um & price & room & feat & u
                  & _ & _ & _ & _ & _ & Hu & ->).
  cbn [unit_number available_date make_listing].
  apply parse_unit_numbers_in in Hu. destruct Hu as (p & Hp & -> & Hd).
  destruct (findall2_unit_word _ _ Hp) as [Hw Hlen].
  apply unit_date_valid in Hd. destruct Hd as (Hy & Hm & Hday).
  cbn [current_year __init__] in Hy. rewrite Hy in Hday.
  repeat split; auto; try lia.
  intros E. rewrite E in Hlen. simpl in Hlen. lia.
Qed.

(** [parse_all], lines 109-111 and 146: the address of every record is
    a piece of a line of the document, copied as it stands there and
    followed by [", Isla Vista, CA 93117"]; the piece starts with four
    or five digits and white space. *)
Theorem records_addresses w path :
  Forall (fun r =>
            exists l pre a post,
              In l (lines_of w path) /\
              Py.strip l = pre ++ a ++ post /\
              address r = a ++ address_suffix /\
              exists d sp rest,
                a = d ++ sp ++ rest /\
                forallb Py.isdigit d = true /\ 4 <= length d <= 5 /\
                forallb Py.isspace sp = true /\ 1 <= length sp)
         (records_of (run w path)).
Proof.
  apply Forall_forall. intros r Hr. apply run_records_origin in Hr.
  destruct Hr as (f & t & (l & a & _ & _ & _ & Ha & Hl) & ->).
  destruct Hl as (pp & rest & tl & um & price & room & feat & u
                  & _ & _ & _ & _ & _ & _ & ->).
  destruct Ha as (l0 & am & Hin & Hs & ->).
  apply search_sound in Hs. destruct Hs as (pre & w0 & post & E & Mw & _).
  apply address_pattern_shape in Mw. destruct Mw as (Hg & Hshape).
  exists l0, pre, w0, post. unfold group. rewrite Hg.
  repeat split; auto.
Qed.

(** [parse_price], [parse_room_type], [extract_features]: in every
    record the price and the bathroom count, when present, are floats
    that are neither NaN nor negative (zero, positive or infinite), the
    bedroom count, when present, is not negative, and the parking cost
    is the integer 0 or such a float. *)
Theorem records_numbers w path :
  Forall (fun r =>
            opt_float_nonneg (price_monthly r) /\
            opt_float_nonneg (bathrooms r) /\
            number_nonneg (parking_cost_yearly r) /\
            match bedrooms r with
            | Some z => (0 <= z)%Z
            | None => True
            end)
         (records_of (run w path)).
Proof.
  apply Forall_forall. intros r Hr. apply run_records_origin in Hr.
  destruct Hr as (f & t & (l & a & _ & _ & _ & _ & Hl) & ->).
  destruct Hl as (pp & rest & tl & um & price & room & feat & u
                  & _ & _ & Hp & Hroom & Hfeat & _ & ->).
  cbn [price_monthly bathrooms parking_cost_yearly bedrooms make_listing].
  apply parse_room_type_shape in Hroom.
  destruct Hroom as (_ & Hb & Hbeds).
  repeat split; auto.
  - destruct price as [x|]; [|exact I]. eapply parse_price_nonneg; eauto.
  - eapply extract_features_parking; eauto.
  - destruct Hbeds as [[-> _]|(z & -> & Hz & _)]; auto.
Qed.

(** [parse_room_type], lines 56-65: in every record [person_capacity]
    is the bedroom count, and the room type is [Unknown] with no
    bedroom count, or one of [Bed], [Single], [Singles], [Person] with
    a bedroom count. *)
Theorem records_room_configuration w path :
  Forall (fun r =>
            person_capacity r = bedrooms r /\
            ((bedrooms r = None /\ room_type r = lit "Unknown") \/
             (exists z, bedrooms r = Some z /\ In (room_type r) room_types)))
         (records_of (run w path)).
Proof.
  apply Forall_forall. intros r Hr. apply run_records_origin in Hr.
  destruct Hr as (f & t & (l & a & _ & _ & _ & _ & Hl) & ->).
  destruct Hl as (pp & rest & tl & um & price & room & feat & u
                  & _ & _ & _ & Hroom & _ & _ & ->).
  cbn [person_capacity bedrooms room_type make_listing].
  apply parse_room_type_shape in Hroom.
  destruct Hroom as (Hc & _ & Hbeds). split; auto.
  destruct Hbeds as [H|(z & Hz & _ & Hin)]; [now left|].
  right. now exists z.
Qed.

(** ** Keywords *)

(** A literal word matches at the head of a text exactly when the text
    starts with it, letter case ignored; nothing is tried again. *)
Lemma exec_text (R : Type) word : forall s g (k : str -> caps -> option R),
  exec true (text word) s g k
  = if starts_with_i word s then k (skipn (length word) s) g else None.
Proof.
  induction word as [|d word IH]; intros s g k; [reflexivity|].
  destruct word as [|d' word].
  - destruct s as [|c s]; [reflexivity|]. cbn.
    now rewrite andb_true_r.
  - change (text (d :: d' :: word))
      with (Cat (Atom (Lit d)) (text (d' :: word))).
    cbn [exec]. destruct s as [|c s]; [reflexivity|].
    cbn [atom_ok starts_with_i length skipn].
    destruct (Ascii.eqb (Py.lower_char c) (Py.lower_char d));
      [apply IH|reflexivity].
Qed.

Lemma found_text word s :
  found_i (text word) s = true <->
  exists pre rest, s = pre ++ rest /\ starts_with_i word rest = true.
Proof.
  unfold found_i, search. generalize 0 as pos.
  induction s as [|c s IH]; intros pos.
  - cbn [search_from]. unfold match_at. rewrite exec_text.
    destruct (starts_with_i word []) eqn:E.
    + split; [|reflexivity]. intros _. now exists [], [].
    + split; [discriminate|]. intros (pre & rest & Hs & Hr).
      symmetry in Hs. apply app_eq_nil in Hs. destruct Hs as [-> ->].
      congruence.
  - cbn [search_from]. unfold match_at at 1. rewrite exec_text.
    destruct (starts_with_i word (c :: s)) eqn:E.
    + split; [|reflexivity]. intros _. now exists [], (c :: s).
    + rewrite IH. split.
      * intros (pre & rest & -> & Hr). now exists (c :: pre), rest.
      * intros (pre & rest & Hs & Hr). destruct pre as [|c' pre].
        -- simpl in Hs. subst rest. congruence.
        -- injection Hs as -> ->. now exists pre, rest.
Qed.

Lemma starts_with_i_lower word : forall s,
  starts_with_i word s = true <->
  exists mid post, s = mid ++ post /\ Py.lower mid = Py.lower word.
Proof.
  induction word as [|d word IH]; intros s.
  - split; [|reflexivity]. intros _. now exists [], s.
  - destruct s as [|c s]; cbn [starts_with_i].
    + split; [discriminate|]. intros (mid & post & Hs & Hm).
      symmetry in Hs. apply app_eq_nil in Hs. destruct Hs as [-> _].
      discriminate.
    + rewrite andb_true_iff, IH, Ascii.eqb_eq. split.
      * intros [Hc (mid & post & -> & Hm)].
        exists (c :: mid), post. split; [reflexivity|].
        unfold Py.lower in *. cbn [map]. now rewrite Hc, Hm.
      * intros (mid & post & Hs & Hm). destruct mid as [|c' mid];
          [discriminate|].
        injection Hs as -> ->. unfold Py.lower in Hm. cbn [map] in Hm.
        injection Hm as Hc Hm. split; auto. now exists mid, post.
Qed.

(** [bool(re.search(word, text, re.I))] for a literal word is the test
    that the word occurs in the text, letter case ignored. *)
Lemma found_text_contains word s :
  found_i (text word) s = true <-> contains_i word s.
Proof.
  rewrite found_text. unfold contains_i. split.
  - intros (pre & rest & -> & Hr). apply starts_with_i_lower in Hr.
    destruct Hr as (mid & post & -> & Hm).
    exists (Py.lower pre), (Py.lower post).
    unfold Py.lower in *. now rewrite !map_app, Hm.
  - intros (pre' & post' & H). unfold Py.lower in H.
    apply map_eq_app in H. destruct H as (pre & rest & -> & _ & H).
    apply map_eq_app in H. destruct H as (mid & post & -> & Hm & _).
    exists pre, (mid ++ post). split; auto.
    apply starts_with_i_lower. now exists mid, post.
Qed.

(** [extract_features], lines 69-75: each of the five flags says
    whether its keyword occurs somewhere in the description, letter
    case ignored; [has_parking] needs the two words [Parking
    Available] with one blank between them. *)
Theorem feature_flags description :
  exists f,
    extract_features description = inr f /\
    (Features.is_remodeled f = true <-> contains_i "Remodeled" description) /\
    (Features.has_balcony f = true <-> contains_i "Balcony" description) /\
    (Features.has_patio f = true <-> contains_i "Patio" description) /\
    (Features.has_parking f = true <->
     contains_i "Parking Available" description) /\
    (Features.split_floor_plan f = true <->
     contains_i "Split Floor Plan" description).
Proof.
  unfold extract_features.
  destruct (search false parking_cost_pattern description) as [m|] eqn:E;
    [rewrite (parking_group_float _ _ E)|];
    cbn [bindE]; eexists; (split; [reflexivity|]);
    cbn [Features.is_remodeled Features.has_balcony Features.has_patio
         Features.has_parking Features.split_floor_plan];
    repeat split; try apply found_text_contains;
    try (apply (proj1 (found_text_contains _ _)));
    try (apply (proj2 (found_text_contains _ _))).
Qed.

(** ** Ids *)

Lemma lower_char_blank c :
  Ascii.eqb (Py.lower_char c) " " = Ascii.eqb c " ".
Proof. destruct c as [[] [] [] [] [] [] [] []]; reflexivity. Qed.

Lemma lower_replace_blank (a : str) :
  Py.lower (Py.replace " " "_" a) = Py.replace " " "_" (Py.lower a).
Proof.
  unfold Py.lower, Py.replace. induction a as [|c a IH]; [reflexivity|].
  cbn [flat_map map]. rewrite map_app, IH, lower_char_blank.
  destruct (Ascii.eqb c " "); reflexivity.
Qed.

Lemma lower_app (a b : str) : Py.lower (a ++ b) = Py.lower a ++ Py.lower b.
Proof. apply map_app. Qed.

Lemma template_id_lower f t :
  is_template f ->
  exists a,
    address (f t) = a ++ address_suffix /\
    listing_id (f t)
    = Py.lower (lit "kamap_") ++ Py.replace " " "_" (Py.lower a)
      ++ Py.lower (lit "_") ++ Py.lower (unit_number (f t)).
Proof.
  intros (line & a & price & room & feat & u & ->). exists a.
  split; [reflexivity|].
  cbn [listing_id unit_number make_listing].
  now rewrite !lower_app, lower_replace_blank.
Qed.

(** Line 144: the id does not tell letter case apart.  Two records, of
    one run or of two, whose addresses and whose unit numbers are the
    same up to letter case have the same [listing_id]. *)
Theorem listing_id_ignores_case w1 p1 w2 p2 r1 r2 :
  In r1 (records_of (run w1 p1)) ->
  In r2 (records_of (run w2 p2)) ->
  Py.lower (address r1) = Py.lower (address r2) ->
  Py.lower (unit_number r1) = Py.lower (unit_number r2) ->
  listing_id r1 = listing_id r2.
Proof.
  rewrite !run_records. intros H1 H2 Ha Hu.
  apply stamp_in in H1. destruct H1 as (f1 & t1 & Hf1 & ->).
  apply stamp_in in H2. destruct H2 as (f2 & t2 & Hf2 & ->).
  pose proof (walk_templates_shape (__init__ p1) (lines_of w1 p1) None) as S1.
  pose proof (walk_templates_shape (__init__ p2) (lines_of w2 p2) None) as S2.
  rewrite Forall_forall in S1, S2.
  destruct (template_id_lower f1 t1 (S1 _ Hf1)) as (a1 & E1 & ->).
  destruct (template_id_lower f2 t2 (S2 _ Hf2)) as (a2 & E2 & ->).
  rewrite E1, E2, !lower_app in Ha. apply app_inv_tail in Ha.
  now rewrite Ha, Hu.
Qed.

(** An instance: the units [A1] and [a1] of one line. *)
Lemma listing_id_ignores_case_witness :
  unit_number (nth 0 (records_of (run (still twin_units_page) [])) blank_listing)
  <> unit_number (nth 1 (records_of (run (still twin_units_page) [])) blank_listing)
  /\
  listing_id (nth 0 (records_of (run (still twin_units_page) [])) blank_listing)
  = listing_id (nth 1 (records_of (run (still twin_units_page) [])) blank_listing).
Proof.
  split; [vm_compute; discriminate|].
  apply (listing_id_ignores_case (still twin_units_page) []
           (still twin_units_page) []).
  - vm_compute. left. reflexivity.
  - vm_compute. right. left. reflexivity.
  - vm_compute. reflexivity.
  - vm_compute. reflexivity.
Defined.

(** ** Marker colours *)

Ltac cmp_cases :=
  repeat match goal with
         | H : context [Pos.compare_cont Eq ?a ?b] |- _ =>
             change (Pos.compare_cont Eq a b) with (Pos.compare a b) in H
         | |- context [Pos.compare_cont Eq ?a ?b] =>
             change (Pos.compare_cont Eq a b) with (Pos.compare a b)
         end;
  repeat match goal with
         | H : context [Z.compare ?a ?b] |- _ =>
             destruct (Z.compare_spec a b)
         | |- context [Z.compare ?a ?b] =>
             destruct (Z.compare_spec a b)
         | H : context [Pos.compare ?a ?b] |- _ =>
             destruct (Pos.compare_spec a b)
         | |- context [Pos.compare ?a ?b] =>
             destruct (Pos.compare_spec a b)
         end;
  subst; simpl in *; try discriminate; try reflexivity; try lia.

(** Below a positive bound: what is not above something below the bound
    is below it too. *)
Lemma SFltb_le_trans p q mc ec :
  SFleb p q = true ->
  SFltb q (S754_finite false mc ec) = true ->
  SFltb p (S754_finite false mc ec) = true.
Proof.
  unfold SFleb, SFltb.
  destruct p as [sp|sp| |sp mp ep], q as [sq|sq| |sq mq eq];
    try destruct sp; try destruct sq; simpl;
    try discriminate; try reflexivity; intros H1 H2; cmp_cases.
Qed.

(** [get_price_color]: the colour goes with the price.  If one price is
    not above another, it is green when the other is, and the other is
    red when it is.  The bounds belong to the dearer range: 2800 is
    orange and 3500 is red.  A listing without a price (NaN) is red. *)
Theorem price_color_monotone :
  (forall p q,
      SFleb p q = true ->
      (get_price_color q = lit "green" -> get_price_color p = lit "green") /\
      (get_price_color p = lit "red" -> get_price_color q = lit "red")) /\
  get_price_color (Py.float_of_Z 2799) = lit "green" /\
  get_price_color (Py.float_of_Z 2800) = lit "orange" /\
  get_price_color (Py.float_of_Z 3499) = lit "orange" /\
  get_price_color (Py.float_of_Z 3500) = lit "red" /\
  get_price_color S754_nan = lit "red".
Proof.
  split; [|repeat split; vm_compute; reflexivity].
  intros p q Hle. unfold get_price_color, float_lt_int.
  assert (E1 : exists m e, Py.float_of_Z 2800 = S754_finite false m e)
    by (vm_compute; eauto).
  assert (E2 : exists m e, Py.float_of_Z 3500 = S754_finite false m e)
    by (vm_compute; eauto).
  destruct E1 as (m1 & e1 & ->). destruct E2 as (m2 & e2 & ->).
  pose proof (SFltb_le_trans p q m1 e1 Hle) as T1.
  pose proof (SFltb_le_trans p q m2 e2 Hle) as T2.
  destruct (SFltb q (S754_finite false m1 e1));
    [rewrite (T1 eq_refl); split; [reflexivity|discriminate]|].
  destruct (SFltb q (S754_finite false m2 e2)); [rewrite (T2 eq_refl)|].
  - split; [discriminate|].
    destruct (SFltb p (S754_finite false m1 e1)); discriminate.
  - split; [discriminate|reflexivity].
Qed.

(** ** Descriptions *)

Lemma lstrip_fixed (s : str) :
  match s with
  | c :: _ => Py.isspace c = false
  | [] => True
  end ->
  Py.lstrip s = s.
Proof. destruct s as [|c s]; simpl; auto. now intros ->. Qed.

Lemma lstrip_head (s : str) :
  match Py.lstrip s with
  | c :: _ => Py.isspace c = false
  | [] => True
  end.
Proof.
  induction s as [|c s IH]; simpl; auto.
  destruct (Py.isspace c) eqn:E; auto.
Qed.

Lemma lstrip_snoc (x : str) c :
  Py.isspace c = false -> Py.lstrip (x ++ [c]) = Py.lstrip x ++ [c].
Proof.
  intros Hc. induction x as [|d x IH]; simpl; [now rewrite Hc|].
  destruct (Py.isspace d); auto.
Qed.

(** [strip] changes nothing in a text it has stripped. *)
Lemma strip_strip (s : str) : Py.strip (Py.strip s) = Py.strip s.
Proof.
  unfold Py.strip.
  assert (H : Py.lstrip (Py.rstrip (Py.lstrip s)) = Py.rstrip (Py.lstrip s)).
  { pose proof (lstrip_head s) as Hh.
    destruct (Py.lstrip s) as [|c t]; [reflexivity|].
    unfold Py.rstrip. cbn [rev]. rewrite lstrip_snoc by exact Hh.
    rewrite rev_app_distr. cbn [rev app]. apply lstrip_fixed. exact Hh. }
  rewrite H. unfold Py.rstrip. rewrite rev_involutive.
  f_equal. apply lstrip_fixed. apply lstrip_head.
Qed.

Lemma split1_two sep (s : str) p rest tl :
  Py.split1 sep s = p :: rest :: tl -> In sep s.
Proof.
  revert p rest tl. induction s as [|c s IH]; intros p rest tl;
    cbn [Py.split1]; [discriminate|].
  destruct (Ascii.eqb c sep) eqn:E.
  - apply Ascii.eqb_eq in E. subst. intros _. now left.
  - destruct (Py.split1 sep s) as [|w ws] eqn:Es; [discriminate|].
    intros H. injection H as _ Hws. right. eapply IH. rewrite Hws.
    reflexivity.
Qed.

(** [parse_all], lines 106-116, and line 154: the description of every
    record is a line of the document without the white space around it;
    it starts with the currency symbol, holds a blank, and the address
    pattern is not found in it.  So a line that holds an address gives
    no record, even when it starts like a listing. *)
Theorem records_descriptions w path :
  Forall (fun r =>
            exists l,
              In l (lines_of w path) /\
              description r = Py.strip l /\
              Py.startswith "$" (description r) = true /\
              In " "%char (description r) /\
              search true address_pattern (description r) = None)
         (records_of (run w path)).
Proof.
  apply Forall_forall. intros r Hr. apply run_records_origin in Hr.
  destruct Hr as (f & t & (l & a & Hin & Hs & Hn & _ & Hl) & ->).
  destruct Hl as (pp & rest & tl & um & price & room & feat & u
                  & Hsp & _ & _ & _ & _ & _ & ->).
  cbn [description make_listing]. rewrite strip_strip.
  exists l. repeat split; auto. eapply split1_two; eauto.
Qed.

(** [_parse_listing_line]: a listing line adds all its records or
    none.  When an extractor raises, the state is as it was before the
    line; when the line returns, the state has the records of the line
    appended and nothing else changed. *)
Theorem listing_line_atomic w line a m :
  match _parse_listing_line w line a m with
  | Raises _ m' => m' = m
  | Returns _ m' =>
      exists new,
        listings (self m') = listings (self m) ++ new /\
        pdf_path (self m') = pdf_path (self m) /\
        current_year (self m') = current_year (self m) /\
        ticks m' = ticks m + length new /\
        Forall (fun r => description r = Py.strip line /\
                         address r = a ++ address_suffix) new
  end.
Proof.
  rewrite parse_listing_line_pure.
  destruct (line_templates (self m) line a) as [e|fs] eqn:E; [reflexivity|].
  exists (stamp w (ticks m) fs). cbn. rewrite stamp_length.
  repeat split. apply Forall_forall. intros r Hr.
  apply stamp_in in Hr. destruct Hr as (f & t & Hf & ->).
  apply (line_templates_origin _ _ _ _ E) in Hf.
  destruct Hf as (pp & rest & tl & um & price & room & feat & u
                  & _ & _ & _ & _ & _ & _ & ->).
  split; reflexivity.
Qed.
